(** * langgraph_diagram.py: the diagram script and the world it acts on

    The script is one function, [create_langgraph_diagram], that issues a
    fixed sequence of plotting-library calls, saves the current figure to a
    literal path, closes it and prints one line.  It is embedded here as a
    computation in a state-and-exception monad over a [World]: the process's
    inputs, the file system, standard output and pyplot's figure registry.
    [python_run] is the interpreter executing the module's own code;
    [process_run] adds what surrounds it in the life of a process: the
    choice of the encoding of standard output at start-up, the imports,
    and the flush at exit.

    Numbers are the decimal literals of the source, kept exact as rationals
    (the script does no arithmetic on them).  Strings are byte strings: the
    non-ASCII characters of the source appear in their UTF-8 encoding. *)

From Stdlib Require Import ZArith QArith List String Ascii.
From Stdlib.Strings Require Import Byte.
From stdpp Require Import base option list gmap strings.

Open Scope string_scope.
Open Scope list_scope.

(** ** Keyword arguments and artists *)

(** A keyword argument as written at a call site.  Only the keywords the
    script uses are listed; [bbox] takes a [dict(...)] of further keywords. *)
#[warnings="-register-all"] Inductive kwarg : Type :=
| figsize (wh : Q * Q)
| fontsize (v : Q)
| fontweight (v : string)
| ha (v : string)
| va (v : string)
| color (v : string)
| style (v : string)
| bbox (d : list kwarg)
| boxstyle (v : string)
| facecolor (v : string)
| edgecolor (v : string)
| linewidth (v : Q)
| arrowstyle (v : string)
| shrinkA (v : Q)
| shrinkB (v : Q)
| mutation_scale (v : Q)
| fc (v : string)
| alpha (v : Q)
| dpi (v : Q)
| bbox_inches (v : string).

(** The two patch classes the script instantiates, with their positional
    arguments in the order of the constructor calls. *)
Inductive Patch : Type :=
| FancyBboxPatch (xy : Q * Q) (width height : Q) (kw : list kwarg)
| ConnectionPatch (xyA xyB : Q * Q) (coordsA coordsB : string) (kw : list kwarg).

(** What an axes holds: text placed by [ax.text] and patches added by
    [ax.add_patch], in the order of the calls. *)
Inductive Artist : Type :=
| Text (x y : Q) (s : string) (kw : list kwarg)
| APatch (p : Patch).

Record axes_state : Type := mkAxes {
  xlim : Q * Q;
  ylim : Q * Q;
  axison : bool;
  children : list Artist
}.

Record figure_state : Type := mkFigure {
  fig_kw : list kwarg;
  fig_axes : list axes_state;
  tight : bool
}.

(** A fresh axes: unit limits, axis decorations on, nothing drawn. *)
Definition new_axes : axes_state :=
  {| xlim := (0, 1)%Q; ylim := (0, 1)%Q; axison := true; children := [] |}.

(** ** The world *)

Inductive Encoding : Type := utf_8 | ascii_only.

(** One entry per library call that returned. *)
Inductive Event : Type :=
| EvSubplots (nrows ncols : nat) (kw : list kwarg)
| EvSetXlim (lo hi : Q)
| EvSetYlim (lo hi : Q)
| EvAxis (arg : string)
| EvText (x y : Q) (s : string) (kw : list kwarg)
| EvAddPatch (p : Patch)
| EvTightLayout
| EvSavefig (fname : string) (kw : list kwarg)
| EvClose
| EvPrint (s : string).

(** The exceptions that can reach the top level.  The four named I/O
    errors are subclasses of [OSError] in Python; [OSError] itself stands
    for the remaining ones (no space left on the device, I/O error). *)
Inductive exn : Type :=
| KeyError (k : string)
| FileNotFoundError (fname : string)
| NotADirectoryError (fname : string)
| IsADirectoryError (fname : string)
| PermissionError (fname : string)
| OSError (fname : string)
| UnicodeEncodeError (s : string)
| ValueError (msg : string).

Definition is_os_error (e : exn) : bool :=
  match e with
  | FileNotFoundError _ | NotADirectoryError _ | IsADirectoryError _
  | PermissionError _ | OSError _ => true
  | KeyError _ | UnicodeEncodeError _ | ValueError _ => false
  end.

(** What the operating system and the installed libraries decide:
    - [readonly]: the paths that refuse writing although their directory
      allows it (a file without write permission);
    - [write_limit]: the number of bytes the device takes before a write
      fails (disk full, I/O error); [None] when writes do not fail;
    - [cleans_up]: whether the imaging library deletes a file that it
      created when writing it fails (Pillow does since 7.1);
    - [backend_loads]: whether matplotlib can load the backend of the
      given name;
    - [stdout_accepts]: whether the destination of standard output takes
      what is flushed to it ([false]: a closed pipe, a full device). *)
Record Platform : Type := mkPlatform {
  readonly : gset string;
  write_limit : option nat;
  cleans_up : bool;
  backend_loads : string -> bool;
  stdout_accepts : bool
}.

(** - [argv], [environ], [stdin]: what a process could read from outside;
    - [png_encoder]: the installed rasteriser (library version, fonts,
      configuration), a function of the figure and the [savefig] keywords;
    - [platform]: see [Platform];
    - [dirs]: the directories that exist, each with whether the process
      may write there (create a file in it, write to a file it holds);
      [files]: the regular files and their contents;
    - [stdout]: the lines written so far, under [stdout_encoding], the
      encoding of [sys.stdout] (the locale's, until start-up replaces it:
      see [startup]);
    - [figs]: pyplot's registry of open figures by number, the current
      figure first;
    - [log]: the calls that returned, newest first. *)
Record World : Type := mkWorld {
  argv : list string;
  environ : gmap string string;
  stdin : list string;
  png_encoder : figure_state -> list kwarg -> list byte;
  platform : Platform;
  dirs : gmap string bool;
  files : gmap string (list byte);
  stdout_encoding : Encoding;
  stdout : list string;
  figs : list (nat * figure_state);
  log : list Event
}.

Definition events (w : World) : list Event := rev (log w).

Definition set_files (f : gmap string (list byte)) (w : World) : World :=
  mkWorld (argv w) (environ w) (stdin w) (png_encoder w) (platform w)
          (dirs w) f (stdout_encoding w) (stdout w) (figs w) (log w).

Definition set_stdout (o : list string) (w : World) : World :=
  mkWorld (argv w) (environ w) (stdin w) (png_encoder w) (platform w)
          (dirs w) (files w) (stdout_encoding w) o (figs w) (log w).

Definition set_figs (fs : list (nat * figure_state)) (w : World) : World :=
  mkWorld (argv w) (environ w) (stdin w) (png_encoder w) (platform w)
          (dirs w) (files w) (stdout_encoding w) (stdout w) fs (log w).

Definition record (e : Event) (w : World) : World :=
  mkWorld (argv w) (environ w) (stdin w) (png_encoder w) (platform w)
          (dirs w) (files w) (stdout_encoding w) (stdout w) (figs w)
          (e :: log w).

Definition set_stdout_encoding (enc : Encoding) (w : World) : World :=
  mkWorld (argv w) (environ w) (stdin w) (png_encoder w) (platform w)
          (dirs w) (files w) enc (stdout w) (figs w) (log w).

(** ** The monad: state passing with Python exceptions *)

Inductive Result (A : Type) : Type :=
| Ok (a : A) (w : World)
| Raise (e : exn) (w : World).
Arguments Ok {A} a w.
Arguments Raise {A} e w.

Definition Py (A : Type) : Type := World -> Result A.

Definition py_ret {A} (a : A) : Py A := fun w => Ok a w.

(** There is no [try] in the script: an exception ends the computation. *)
Definition py_bind {A B} (m : Py A) (k : A -> Py B) : Py B :=
  fun w => match m w with
           | Ok a w' => k a w'
           | Raise e w' => Raise e w'
           end.

Definition raise {A} (e : exn) : Py A := fun w => Raise e w.

#[export] Instance py_mret : MRet Py := @py_ret.
#[export] Instance py_mbind : MBind Py := fun A B k m => py_bind m k.

(** ** Built-ins *)

(** A dict literal, kept as the list of its items in source order. *)
Fixpoint dict_get (d : list (string * string)) (k : string) : option string :=
  match d with
  | [] => None
  | (k', v) :: d' => if String.eqb k' k then Some v else dict_get d' k
  end.

(** [d[k]]: the value, or [KeyError]. *)
Definition getitem (d : list (string * string)) (k : string) : Py string :=
  match dict_get d k with
  | Some v => mret v
  | None => raise (KeyError k)
  end.

Definition is_ascii (s : string) : bool :=
  forallb (fun c => (nat_of_ascii c <? 128)%nat) (list_ascii_of_string s).

Definition encodable (enc : Encoding) (s : string) : bool :=
  match enc with
  | utf_8 => true
  | ascii_only => is_ascii s
  end.

(** [print(s)]: the text is encoded for [sys.stdout] with strict error
    handling, then written as one line. *)
Definition print (s : string) : Py unit :=
  fun w =>
    if encodable (stdout_encoding w) s
    then Ok tt (record (EvPrint s) (set_stdout (stdout w ++ [s]) w))
    else Raise (UnicodeEncodeError s) w.

(** ** matplotlib

    The plotting library is not part of the repository.  The calls the
    script makes are given their documented behaviour on the state this
    file keeps: pyplot's registry of figures with a current figure, axes
    that collect artists in call order, and [savefig] as the one call that
    touches the file system.  Rasterisation itself is the world's
    [png_encoder]. *)

(** The directory part of a path: everything before the last slash. *)
Fixpoint dirname_aux (s : string) : option string :=
  match s with
  | EmptyString => None
  | String c s' =>
      match dirname_aux s' with
      | Some d => Some (String c d)
      | None => if Ascii.eqb c "/" then Some EmptyString else None
      end
  end.

Definition dirname (s : string) : string := default EmptyString (dirname_aux s).

(** The directories above a path, nearest first. *)
Fixpoint ancestors_aux (fuel : nat) (s : string) : list string :=
  match fuel with
  | O => []
  | S fuel' =>
      let d := dirname s in
      if String.eqb d EmptyString then [] else d :: ancestors_aux fuel' d
  end.

Definition ancestors (s : string) : list string :=
  ancestors_aux (String.length s) s.

(** Whether a component of the path to [fname] is a regular file. *)
Definition blocked_by_file (fname : string) (w : World) : bool :=
  existsb (fun d => bool_decide (is_Some (files w !! d))) (ancestors fname).

(** [open(fname, "wb")]: the error it raises, if any.  The path is
    resolved first (a missing directory, a regular file in the place of
    one), then the target is looked at (a directory cannot be opened for
    writing), then the permissions. *)
Definition open_error (fname : string) (w : World) : option exn :=
  match dirs w !! dirname fname with
  | None =>
      if blocked_by_file fname w
      then Some (NotADirectoryError fname)
      else Some (FileNotFoundError fname)
  | Some writable =>
      match dirs w !! fname with
      | Some _ => Some (IsADirectoryError fname)
      | None =>
          if writable && negb (bool_decide (fname ∈ readonly (platform w)))
          then None
          else Some (PermissionError fname)
      end
  end.

(** Writing [data] to the open file: [Some n] when the device fails after
    taking [n] bytes, fewer than there are. *)
Definition short_write (data : list byte) (w : World) : option nat :=
  match write_limit (platform w) with
  | Some n => if (n <? length data)%nat then Some n else None
  | None => None
  end.

(** The files after a write to [fname] that failed when [part] was
    written.  Opening the file truncated it, so it holds [part] and no
    more; if the open created the file, a library that cleans up deletes
    it again. *)
Definition after_failed_write (fname : string) (part : list byte)
    (w : World) : gmap string (list byte) :=
  match files w !! fname with
  | None =>
      if cleans_up (platform w) then files w else <[fname := part]> (files w)
  | Some _ => <[fname := part]> (files w)
  end.

Definition fresh_num (fs : list (nat * figure_state)) : nat :=
  S (foldr Nat.max 0%nat (fst <$> fs)).

(** Apply [f] to the figure registered under [num]; a handle whose figure
    is no longer registered reaches nothing in the registry. *)
Fixpoint alter_fig (num : nat) (f : figure_state -> figure_state)
    (fs : list (nat * figure_state)) : list (nat * figure_state) :=
  match fs with
  | [] => []
  | (m, g) :: fs' =>
      if Nat.eqb m num then (m, f g) :: fs' else (m, g) :: alter_fig num f fs'
  end.

Definition alter_axes (i : nat) (f : axes_state -> axes_state)
    (g : figure_state) : figure_state :=
  mkFigure (fig_kw g) (alter f i (fig_axes g)) (tight g).

(** An axes object is referred to by its figure's number and its position
    in the figure's grid. *)
Definition AxesRef : Type := nat * nat.

Definition axes_call (ax : AxesRef) (e : Event)
    (f : axes_state -> axes_state) : Py unit :=
  fun w =>
    Ok tt (record e
             (set_figs (alter_fig (fst ax) (alter_axes (snd ax) f) (figs w)) w)).

Module Axes.

Definition set_xlim (ax : AxesRef) (lo hi : Q) : Py unit :=
  axes_call ax (EvSetXlim lo hi)
    (fun a => mkAxes (lo, hi) (ylim a) (axison a) (children a)).

Definition set_ylim (ax : AxesRef) (lo hi : Q) : Py unit :=
  axes_call ax (EvSetYlim lo hi)
    (fun a => mkAxes (xlim a) (lo, hi) (axison a) (children a)).

(** [ax.axis('off')] hides the axis lines, ticks and labels; ['on'] shows
    them; the other options are not used by the script. *)
Definition axis (ax : AxesRef) (arg : string) : Py unit :=
  axes_call ax (EvAxis arg)
    (fun a =>
       mkAxes (xlim a) (ylim a)
         (if String.eqb arg "off" then false
          else if String.eqb arg "on" then true else axison a)
         (children a)).

Definition text (ax : AxesRef) (x y : Q) (s : string) (kw : list kwarg)
  : Py unit :=
  axes_call ax (EvText x y s kw)
    (fun a => mkAxes (xlim a) (ylim a) (axison a)
                (children a ++ [Text x y s kw])).

Definition add_patch (ax : AxesRef) (p : Patch) : Py unit :=
  axes_call ax (EvAddPatch p)
    (fun a => mkAxes (xlim a) (ylim a) (axison a)
                (children a ++ [APatch p])).

End Axes.

Module plt.

(** [plt.subplots(nrows, ncols, **kw)]: a new figure, numbered one above
    the highest open one, becomes the current figure and gets a grid of
    fresh axes; the call returns the figure and (for the 1 x 1 grid of
    the script) its single axes. *)
Definition subplots (nrows ncols : nat) (kw : list kwarg)
  : Py (nat * AxesRef) :=
  fun w =>
    let num := fresh_num (figs w) in
    let g := mkFigure kw (replicate (nrows * ncols) new_axes) false in
    Ok (num, (num, 0%nat))
       (record (EvSubplots nrows ncols kw) (set_figs ((num, g) :: figs w) w)).

(** [plt.gcf()]: the current figure, created if none is open. *)
Definition gcf : Py (nat * figure_state) :=
  fun w =>
    match figs w with
    | (num, g) :: _ => Ok (num, g) w
    | [] => let num := fresh_num [] in
            let g := mkFigure [] [new_axes] false in
            Ok (num, g) (set_figs [(num, g)] w)
    end.

Definition tight_layout : Py unit :=
  py_bind gcf (fun '(num, _) w =>
    Ok tt (record EvTightLayout
             (set_figs
                (alter_fig num
                   (fun g => mkFigure (fig_kw g) (fig_axes g) true)
                   (figs w)) w))).

(** [plt.savefig(fname, **kw)] renders the current figure, opens [fname]
    for writing and writes the image into it, in place.  When the file
    cannot be opened nothing is created or changed.  When the write fails
    part-way the call raises as well and the file is left as
    [after_failed_write] says.  Otherwise the file holds the encoder's
    output, replacing what was there. *)
Definition savefig (fname : string) (kw : list kwarg) : Py unit :=
  py_bind gcf (fun '(_, g) w =>
    match open_error fname w with
    | Some e => Raise e w
    | None =>
        let data := png_encoder w g kw in
        match short_write data w with
        | Some n =>
            Raise (OSError fname)
              (set_files (after_failed_write fname (take n data) w) w)
        | None =>
            Ok tt (record (EvSavefig fname kw)
                     (set_files (<[fname := data]> (files w)) w))
        end
    end).

(** [plt.close()] removes the current figure from the registry. *)
Definition close : Py unit :=
  fun w => Ok tt (record EvClose (set_figs (tail (figs w)) w)).

End plt.

(** ** The script *)

Definition nl : string := String "010"%char EmptyString.

Local Open Scope Q_scope.

Definition create_langgraph_diagram : Py unit :=
  (* Create figure and axis *)
  '(fig, ax) ← plt.subplots 1 1 [figsize (16, 12)];
  Axes.set_xlim ax 0 16;;
  Axes.set_ylim ax 0 12;;
  Axes.axis ax "off";;

  (* Colors *)
  let colors :=
    [ ("input", "#E3F2FD");
      ("analyze", "#FFECB3");
      ("think", "#F3E5F5");
      ("tools", "#E8F5E8");
      ("synthesize", "#FFF3E0");
      ("output", "#FAFAFA");
      ("arrow", "#666666");
      ("text", "#333333") ] in

  (* Title *)
  c ← getitem colors "text";
  Axes.text ax 8 11.5 "ThinkingCindyAgent - LangGraph Architecture"
    [fontsize 20; fontweight "bold"; ha "center"; color c];;

  (* Phase 1: Input Analysis *)
  c ← getitem colors "input";
  let input_box := FancyBboxPatch (1, 9.5) 3 1.2
                     [boxstyle "round,pad=0.1";
                      facecolor c;
                      edgecolor "black"; linewidth 2] in
  Axes.add_patch ax input_box;;
  Axes.text ax 2.5 10.1 "PHASE 1: INPUT" [fontsize 12; fontweight "bold"; ha "center"];;
  Axes.text ax 2.5 9.8 "analyzeInput()" [fontsize 10; ha "center"; style "italic"];;
  Axes.text ax 2.5 9.6 ("• Parse hashtags" +:+ nl +:+ "• Extract clean input" +:+ nl +:+ "• Identify forced tools")
    [fontsize 9; ha "center"; va "center"];;

  (* Phase 2: Thinking & Planning *)
  c ← getitem colors "think";
  let think_box := FancyBboxPatch (6, 9.5) 3 1.2
                     [boxstyle "round,pad=0.1";
                      facecolor c;
                      edgecolor "black"; linewidth 2] in
  Axes.add_patch ax think_box;;
  Axes.text ax 7.5 10.1 "PHASE 2: THINKING" [fontsize 12; fontweight "bold"; ha "center"];;
  Axes.text ax 7.5 9.8 "createThinkingPlan()" [fontsize 10; ha "center"; style "italic"];;
  Axes.text ax 7.5 9.6 ("• LLM planning call" +:+ nl +:+ "• Tool suggestion" +:+ nl +:+ "• Create execution plan")
    [fontsize 9; ha "center"; va "center"];;

  (* Phase 3: Tool Execution *)
  c ← getitem colors "tools";
  let tools_box := FancyBboxPatch (11, 9.5) 3 1.2
                     [boxstyle "round,pad=0.1";
                      facecolor c;
                      edgecolor "black"; linewidth 2] in
  Axes.add_patch ax tools_box;;
  Axes.text ax 12.5 10.1 "PHASE 3: TOOLS" [fontsize 12; fontweight "bold"; ha "center"];;
  Axes.text ax 12.5 9.8 "executeTools()" [fontsize 10; ha "center"; style "italic"];;
  Axes.text ax 12.5 9.6 ("• Run planned tools" +:+ nl +:+ "• Collect results" +:+ nl +:+ "• Handle errors")
    [fontsize 9; ha "center"; va "center"];;

  (* Phase 4: Synthesis *)
  c ← getitem colors "synthesize";
  let synth_box := FancyBboxPatch (6, 7.5) 3 1.2
                     [boxstyle "round,pad=0.1";
                      facecolor c;
                      edgecolor "black"; linewidth 2] in
  Axes.add_patch ax synth_box;;
  Axes.text ax 7.5 8.1 "PHASE 4: SYNTHESIS" [fontsize 12; fontweight "bold"; ha "center"];;
  Axes.text ax 7.5 7.8 "synthesizeResponse()" [fontsize 10; ha "center"; style "italic"];;
  Axes.text ax 7.5 7.6 ("• Final LLM call" +:+ nl +:+ "• Combine tool results" +:+ nl +:+ "• Generate citations")
    [fontsize 9; ha "center"; va "center"];;

  (* Available Tools Section *)
  let tools_section := FancyBboxPatch (1, 5.5) 6 1.5
                         [boxstyle "round,pad=0.1";
                          facecolor "#F5F5F5";
                          edgecolor "black"; linewidth 1] in
  Axes.add_patch ax tools_section;;
  Axes.text ax 4 6.8 "AVAILABLE TOOLS" [fontsize 12; fontweight "bold"; ha "center"];;
  Axes.text ax 2 6.4 "• search_documents" [fontsize 10; ha "left"];;
  Axes.text ax 2 6.1 "• read_file" [fontsize 10; ha "left"];;
  Axes.text ax 2 5.8 "• write_file" [fontsize 10; ha "left"];;
  Axes.text ax 4.5 6.4 "• web_search" [fontsize 10; ha "left"];;
  Axes.text ax 4.5 6.1 "• brave_search" [fontsize 10; ha "left"];;
  Axes.text ax 4.5 5.8 "• list_directory" [fontsize 10; ha "left"];;

  (* Hashtag System *)
  let hashtag_section := FancyBboxPatch (9, 5.5) 6 1.5
                           [boxstyle "round,pad=0.1";
                            facecolor "#FFF9C4";
                            edgecolor "black"; linewidth 1] in
  Axes.add_patch ax hashtag_section;;
  Axes.text ax 12 6.8 "HASHTAG TOOL FORCING" [fontsize 12; fontweight "bold"; ha "center"];;
  Axes.text ax 10 6.4 "#search → search_documents" [fontsize 10; ha "left"];;
  Axes.text ax 10 6.1 "#read → read_file" [fontsize 10; ha "left"];;
  Axes.text ax 10 5.8 "#web → web_search_preferred" [fontsize 10; ha "left"];;
  Axes.text ax 13 6.4 "#write → write_file" [fontsize 10; ha "left"];;
  Axes.text ax 13 6.1 "#brave → brave_search" [fontsize 10; ha "left"];;
  Axes.text ax 13 5.8 "#dir → list_directory" [fontsize 10; ha "left"];;

  (* Streaming Process *)
  let stream_box := FancyBboxPatch (1, 3.5) 14 1.5
                      [boxstyle "round,pad=0.1";
                       facecolor "#E1F5FE";
                       edgecolor "blue"; linewidth 2] in
  Axes.add_patch ax stream_box;;
  Axes.text ax 8 4.7 "STREAMING PROCESS (processStreaming)" [fontsize 14; fontweight "bold"; ha "center"];;
  Axes.text ax 2 4.3 "<think> blocks" [fontsize 10; ha "left"; bbox [boxstyle "round,pad=0.3"; facecolor "white"]];;
  Axes.text ax 5 4.3 "<tool> execution" [fontsize 10; ha "left"; bbox [boxstyle "round,pad=0.3"; facecolor "white"]];;
  Axes.text ax 8.5 4.3 "Real-time progress" [fontsize 10; ha "left"; bbox [boxstyle "round,pad=0.3"; facecolor "white"]];;
  Axes.text ax 12 4.3 "Structured output" [fontsize 10; ha "left"; bbox [boxstyle "round,pad=0.3"; facecolor "white"]];;
  Axes.text ax 8 3.8 "Emits structured tokens for UI rendering: thinking blocks, tool calls, progress updates"
    [fontsize 10; ha "center"; style "italic"];;

  (* LLM Calls *)
  let llm_calls := FancyBboxPatch (1, 1.5) 14 1.5
                     [boxstyle "round,pad=0.1";
                      facecolor "#FCE4EC";
                      edgecolor "purple"; linewidth 2] in
  Axes.add_patch ax llm_calls;;
  Axes.text ax 8 2.7 "LLM INTEGRATION POINTS" [fontsize 14; fontweight "bold"; ha "center"];;
  Axes.text ax 3 2.3 "1. Planning Call" [fontsize 11; ha "center"; bbox [boxstyle "round,pad=0.3"; facecolor "white"]];;
  Axes.text ax 3 2.0 "createThinkingPlan()" [fontsize 9; ha "center"; style "italic"];;
  Axes.text ax 8 2.3 "2. Direct Response" [fontsize 11; ha "center"; bbox [boxstyle "round,pad=0.3"; facecolor "white"]];;
  Axes.text ax 8 2.0 "Simple greetings" [fontsize 9; ha "center"; style "italic"];;
  Axes.text ax 13 2.3 "3. Synthesis Call" [fontsize 11; ha "center"; bbox [boxstyle "round,pad=0.3"; facecolor "white"]];;
  Axes.text ax 13 2.0 "synthesizeResponse()" [fontsize 9; ha "center"; style "italic"];;
  Axes.text ax 8 1.7 "Smart routing: Simple greetings = 1 call | Complex requests = 2 calls"
    [fontsize 10; ha "center"; style "italic"; color "purple"];;

  (* Arrows showing flow *)
  (* Phase 1 to Phase 2 *)
  c ← getitem colors "arrow";
  let arrow1 := ConnectionPatch (4, 10.1) (6, 10.1) "data" "data"
                  [arrowstyle "->"; shrinkA 5; shrinkB 5; mutation_scale 20; fc c] in
  Axes.add_patch ax arrow1;;

  (* Phase 2 to Phase 3 *)
  c ← getitem colors "arrow";
  let arrow2 := ConnectionPatch (9, 10.1) (11, 10.1) "data" "data"
                  [arrowstyle "->"; shrinkA 5; shrinkB 5; mutation_scale 20; fc c] in
  Axes.add_patch ax arrow2;;

  (* Phase 3 to Phase 4 *)
  c ← getitem colors "arrow";
  let arrow3 := ConnectionPatch (12.5, 9.5) (7.5, 8.7) "data" "data"
                  [arrowstyle "->"; shrinkA 5; shrinkB 5; mutation_scale 20; fc c] in
  Axes.add_patch ax arrow3;;

  (* Tools to Phase 3 *)
  let arrow4 := ConnectionPatch (4, 5.5) (12.5, 9.5) "data" "data"
                  [arrowstyle "->"; shrinkA 5; shrinkB 5; mutation_scale 15; fc "green"; alpha 0.7] in
  Axes.add_patch ax arrow4;;

  (* Hashtags to Phase 1 *)
  let arrow5 := ConnectionPatch (12, 5.5) (2.5, 9.5) "data" "data"
                  [arrowstyle "->"; shrinkA 5; shrinkB 5; mutation_scale 15; fc "orange"; alpha 0.7] in
  Axes.add_patch ax arrow5;;

  (* Footer *)
  Axes.text ax 8 0.5 "ThinkingCindyAgent: Multi-phase AI reasoning with tool execution and streaming output"
    [fontsize 12; ha "center"; style "italic"; color "gray"];;

  plt.tight_layout;;
  plt.savefig "/Users/karwo09/code/voice-assistant/langgraph_architecture.png"
    [dpi 300; bbox_inches "tight"; facecolor "white"];;
  plt.close;;

  print "✅ LangGraph architecture diagram saved as 'langgraph_architecture.png'".

Local Close Scope Q_scope.

(** ** What the script draws, written out

    The artists of the finished canvas in call order, with the colour
    look-ups resolved, and the figure holding them. *)

Local Open Scope Q_scope.

Definition drawing : list Artist :=
  [
    Text 8 11.5 "ThinkingCindyAgent - LangGraph Architecture"
      [fontsize 20; fontweight "bold"; ha "center"; color "#333333"];
    APatch (FancyBboxPatch (1, 9.5) 3 1.2
      [boxstyle "round,pad=0.1"; facecolor "#E3F2FD"; edgecolor "black"; linewidth 2]);
    Text 2.5 10.1 "PHASE 1: INPUT"
      [fontsize 12; fontweight "bold"; ha "center"];
    Text 2.5 9.8 "analyzeInput()"
      [fontsize 10; ha "center"; style "italic"];
    Text 2.5 9.6 ("• Parse hashtags" +:+ nl +:+ "• Extract clean input" +:+ nl +:+ "• Identify forced tools")
      [fontsize 9; ha "center"; va "center"];
    APatch (FancyBboxPatch (6, 9.5) 3 1.2
      [boxstyle "round,pad=0.1"; facecolor "#F3E5F5"; edgecolor "black"; linewidth 2]);
    Text 7.5 10.1 "PHASE 2: THINKING"
      [fontsize 12; fontweight "bold"; ha "center"];
    Text 7.5 9.8 "createThinkingPlan()"
      [fontsize 10; ha "center"; style "italic"];
    Text 7.5 9.6 ("• LLM planning call" +:+ nl +:+ "• Tool suggestion" +:+ nl +:+ "• Create execution plan")
      [fontsize 9; ha "center"; va "center"];
    APatch (FancyBboxPatch (11, 9.5) 3 1.2
      [boxstyle "round,pad=0.1"; facecolor "#E8F5E8"; edgecolor "black"; linewidth 2]);
    Text 12.5 10.1 "PHASE 3: TOOLS"
      [fontsize 12; fontweight "bold"; ha "center"];
    Text 12.5 9.8 "executeTools()"
      [fontsize 10; ha "center"; style "italic"];
    Text 12.5 9.6 ("• Run planned tools" +:+ nl +:+ "• Collect results" +:+ nl +:+ "• Handle errors")
      [fontsize 9; ha "center"; va "center"];
    APatch (FancyBboxPatch (6, 7.5) 3 1.2
      [boxstyle "round,pad=0.1"; facecolor "#FFF3E0"; edgecolor "black"; linewidth 2]);
    Text 7.5 8.1 "PHASE 4: SYNTHESIS"
      [fontsize 12; fontweight "bold"; ha "center"];
    Text 7.5 7.8 "synthesizeResponse()"
      [fontsize 10; ha "center"; style "italic"];
    Text 7.5 7.6 ("• Final LLM call" +:+ nl +:+ "• Combine tool results" +:+ nl +:+ "• Generate citations")
      [fontsize 9; ha "center"; va "center"];
    APatch (FancyBboxPatch (1, 5.5) 6 1.5
      [boxstyle "round,pad=0.1"; facecolor "#F5F5F5"; edgecolor "black"; linewidth 1]);
    Text 4 6.8 "AVAILABLE TOOLS"
      [fontsize 12; fontweight "bold"; ha "center"];
    Text 2 6.4 "• search_documents"
      [fontsize 10; ha "left"];
    Text 2 6.1 "• read_file"
      [fontsize 10; ha "left"];
    Text 2 5.8 "• write_file"
      [fontsize 10; ha "left"];
    Text 4.5 6.4 "• web_search"
      [fontsize 10; ha "left"];
    Text 4.5 6.1 "• brave_search"
      [fontsize 10; ha "left"];
    Text 4.5 5.8 "• list_directory"
      [fontsize 10; ha "left"];
    APatch (FancyBboxPatch (9, 5.5) 6 1.5
      [boxstyle "round,pad=0.1"; facecolor "#FFF9C4"; edgecolor "black"; linewidth 1]);
    Text 12 6.8 "HASHTAG TOOL FORCING"
      [fontsize 12; fontweight "bold"; ha "center"];
    Text 10 6.4 "#search → search_documents"
      [fontsize 10; ha "left"];
    Text 10 6.1 "#read → read_file"
      [fontsize 10; ha "left"];
    Text 10 5.8 "#web → web_search_preferred"
      [fontsize 10; ha "left"];
    Text 13 6.4 "#write → write_file"
      [fontsize 10; ha "left"];
    Text 13 6.1 "#brave → brave_search"
      [fontsize 10; ha "left"];
    Text 13 5.8 "#dir → list_directory"
      [fontsize 10; ha "left"];
    APatch (FancyBboxPatch (1, 3.5) 14 1.5
      [boxstyle "round,pad=0.1"; facecolor "#E1F5FE"; edgecolor "blue"; linewidth 2]);
    Text 8 4.7 "STREAMING PROCESS (processStreaming)"
      [fontsize 14; fontweight "bold"; ha "center"];
    Text 2 4.3 "<think> blocks"
      [fontsize 10; ha "left"; bbox [boxstyle "round,pad=0.3"; facecolor "white"]];
    Text 5 4.3 "<tool> execution"
      [fontsize 10; ha "left"; bbox [boxstyle "round,pad=0.3"; facecolor "white"]];
    Text 8.5 4.3 "Real-time progress"
      [fontsize 10; ha "left"; bbox [boxstyle "round,pad=0.3"; facecolor "white"]];
    Text 12 4.3 "Structured output"
      [fontsize 10; ha "left"; bbox [boxstyle "round,pad=0.3"; facecolor "white"]];
    Text 8 3.8 "Emits structured tokens for UI rendering: thinking blocks, tool calls, progress updates"
      [fontsize 10; ha "center"; style "italic"];
    APatch (FancyBboxPatch (1, 1.5) 14 1.5
      [boxstyle "round,pad=0.1"; facecolor "#FCE4EC"; edgecolor "purple"; linewidth 2]);
    Text 8 2.7 "LLM INTEGRATION POINTS"
      [fontsize 14; fontweight "bold"; ha "center"];
    Text 3 2.3 "1. Planning Call"
      [fontsize 11; ha "center"; bbox [boxstyle "round,pad=0.3"; facecolor "white"]];
    Text 3 2.0 "createThinkingPlan()"
      [fontsize 9; ha "center"; style "italic"];
    Text 8 2.3 "2. Direct Response"
      [fontsize 11; ha "center"; bbox [boxstyle "round,pad=0.3"; facecolor "white"]];
    Text 8 2.0 "Simple greetings"
      [fontsize 9; ha "center"; style "italic"];
    Text 13 2.3 "3. Synthesis Call"
      [fontsize 11; ha "center"; bbox [boxstyle "round,pad=0.3"; facecolor "white"]];
    Text 13 2.0 "synthesizeResponse()"
      [fontsize 9; ha "center"; style "italic"];
    Text 8 1.7 "Smart routing: Simple greetings = 1 call | Complex requests = 2 calls"
      [fontsize 10; ha "center"; style "italic"; color "purple"];
    APatch (ConnectionPatch (4, 10.1) (6, 10.1) "data" "data"
      [arrowstyle "->"; shrinkA 5; shrinkB 5; mutation_scale 20; fc "#666666"]);
    APatch (ConnectionPatch (9, 10.1) (11, 10.1) "data" "data"
      [arrowstyle "->"; shrinkA 5; shrinkB 5; mutation_scale 20; fc "#666666"]);
    APatch (ConnectionPatch (12.5, 9.5) (7.5, 8.7) "data" "data"
      [arrowstyle "->"; shrinkA 5; shrinkB 5; mutation_scale 20; fc "#666666"]);
    APatch (ConnectionPatch (4, 5.5) (12.5, 9.5) "data" "data"
      [arrowstyle "->"; shrinkA 5; shrinkB 5; mutation_scale 15; fc "green"; alpha 0.7]);
    APatch (ConnectionPatch (12, 5.5) (2.5, 9.5) "data" "data"
      [arrowstyle "->"; shrinkA 5; shrinkB 5; mutation_scale 15; fc "orange"; alpha 0.7]);
    Text 8 0.5 "ThinkingCindyAgent: Multi-phase AI reasoning with tool execution and streaming output"
      [fontsize 12; ha "center"; style "italic"; color "gray"]
  ].

Definition diagram : figure_state :=
  {| fig_kw := [figsize (16, 12)];
     fig_axes := [ {| xlim := (0, 16); ylim := (0, 12); axison := false;
                      children := drawing |} ];
     tight := true |}.

Definition output_path : string :=
  "/Users/karwo09/code/voice-assistant/langgraph_architecture.png".

Definition output_dir : string := "/Users/karwo09/code/voice-assistant".

Definition save_kw : list kwarg :=
  [dpi 300; bbox_inches "tight"; facecolor "white"].

Definition confirmation : string :=
  "✅ LangGraph architecture diagram saved as 'langgraph_architecture.png'".

Definition event_of_artist (a : Artist) : Event :=
  match a with
  | Text x y s kw => EvText x y s kw
  | APatch p => EvAddPatch p
  end.

(** The calls up to and including the last drawing call. *)
Definition build_events : list Event :=
  [EvSubplots 1 1 [figsize (16, 12)]; EvSetXlim 0 16; EvSetYlim 0 12;
   EvAxis "off"] ++ (event_of_artist <$> drawing).

Local Close Scope Q_scope.

(** Lines 12-175, the module's own code.  Running the file as a program
    ([__name__ == "__main__"]) calls the function once; importing it as a
    module calls nothing. *)
Definition module_body (name : string) : Py unit :=
  if String.eqb name "__main__" then create_langgraph_diagram else mret tt.

(** The interpreter executing the module's own code, the imports done:
    status 0 when the module body returns, 1 when an exception reaches the
    top level.  What comes before and after in the life of the process
    (start-up, the imports of lines 7-10, the flush at exit) is in
    [process_run]. *)
Definition python_run (w : World) : Z * World :=
  match module_body "__main__" w with
  | Ok _ w' => (0%Z, w')
  | Raise _ w' => (1%Z, w')
  end.

(** Lines 7-10, the imports.  Importing [matplotlib.pyplot] resolves the
    backend: with [MPLBACKEND] set to a name matplotlib cannot load, the
    import raises [ValueError].  The other imports only bind names. *)
Definition imports : Py unit :=
  fun w =>
    match environ w !! "MPLBACKEND" with
    | None => Ok tt w
    | Some v =>
        if backend_loads (platform w) v then Ok tt w
        else Raise (ValueError v) w
    end.

(** The encodings of this file, by the names [PYTHONIOENCODING] can give
    them.  Other names are not modelled and count as unknown. *)
Definition codec_of_name (v : string) : option Encoding :=
  if existsb (String.eqb v) ["ascii"; "ASCII"; "us-ascii"]
  then Some ascii_only
  else if existsb (String.eqb v) ["utf-8"; "UTF-8"; "utf8"]
       then Some utf_8
       else None.

(** Interpreter start-up: [sys.stdout] takes the encoding named by
    [PYTHONIOENCODING] when the variable is set, and keeps the locale's
    otherwise.  With an unknown name the interpreter gives up ([None]). *)
Definition startup (w : World) : option World :=
  match environ w !! "PYTHONIOENCODING" with
  | None => Some w
  | Some v =>
      match codec_of_name v with
      | Some enc => Some (set_stdout_encoding enc w)
      | None => None
      end
  end.

(** The exit of the process, from the result [r] of running the module's
    own code in [w1]: standard output is flushed.  When the code ran to
    its end but what it printed cannot be flushed, the interpreter exits
    with status 120 and the destination never receives the line. *)
Definition at_exit (w1 : World) (r : Z * World) : Z * World :=
  if (fst r =? 0)%Z && negb (stdout_accepts (platform w1))
  then (120%Z, set_stdout (stdout w1) (snd r))
  else r.

(** The whole process: start-up, the imports, the module's own code, and
    the exit. *)
Definition process_run (w : World) : Z * World :=
  match startup w with
  | None => (1%Z, w)
  | Some w0 =>
      match imports w0 with
      | Raise _ w1 => (1%Z, w1)
      | Ok _ w1 => at_exit w1 (python_run w1)
      end
  end.



(** The calls a run makes: the events of its final world beyond those the
    initial world already had. *)
Definition calls_of_run (w : World) : list Event :=
  drop (length (log w)) (events (snd (python_run w))).

(** [k] invocations of the function in one process. *)
Fixpoint invocations (k : nat) : Py unit :=
  match k with
  | O => mret tt
  | S k' => create_langgraph_diagram;; invocations k'
  end.

(** ** The states a run passes through *)

(** The canvas is complete and laid out; nothing has been saved. *)
Definition built (w : World) : World :=
  mkWorld (argv w) (environ w) (stdin w) (png_encoder w) (platform w)
          (dirs w) (files w) (stdout_encoding w) (stdout w)
          ((fresh_num (figs w), diagram) :: figs w)
          (EvTightLayout :: rev build_events ++ log w).

(** The figure is saved and closed; nothing has been printed. *)
Definition exported (w : World) : World :=
  mkWorld (argv w) (environ w) (stdin w) (png_encoder w) (platform w)
          (dirs w)
          (<[output_path := png_encoder w diagram save_kw]> (files w))
          (stdout_encoding w) (stdout w)
          (figs w)
          (EvClose :: EvSavefig output_path save_kw :: log (built w)).

Definition finished (w : World) : World :=
  record (EvPrint confirmation)
    (set_stdout (stdout w ++ [confirmation]) (exported w)).

(** The write failed after [n] bytes; the figure is still open. *)
Definition truncated (n : nat) (w : World) : World :=
  set_files
    (after_failed_write output_path
       (take n (png_encoder w diagram save_kw)) w)
    (built w).

(** How far the export gets. *)
Inductive Stage : Type :=
| OpenFailed (e : exn)
| WriteFailed (n : nat)
| PrintFailed
| Completed.

Definition stage (w : World) : Stage :=
  match open_error output_path w with
  | Some e => OpenFailed e
  | None =>
      match short_write (png_encoder w diagram save_kw) w with
      | Some n => WriteFailed n
      | None =>
          if encodable (stdout_encoding w) confirmation
          then Completed else PrintFailed
      end
  end.

Definition outcome (w : World) : Result unit :=
  match stage w with
  | OpenFailed e => Raise e (built w)
  | WriteFailed n => Raise (OSError output_path) (truncated n w)
  | PrintFailed => Raise (UnicodeEncodeError confirmation) (exported w)
  | Completed => Ok tt (finished w)
  end.

(** ** String and event predicates used in the statements *)

Definition contains (needle hay : string) : bool :=
  match String.index 0 needle hay with
  | Some _ => true
  | None => false
  end.

Definition is_savefig (e : Event) : bool :=
  match e with EvSavefig _ _ => true | _ => false end.


Definition is_drawing (e : Event) : bool :=
  match e with EvText _ _ _ _ | EvAddPatch _ => true | _ => false end.




(** The calls that return after the layout, by the cases of [outcome]. *)
Definition export_calls (w : World) : list Event :=
  match stage w with
  | OpenFailed _ | WriteFailed _ => []
  | PrintFailed => [EvSavefig output_path save_kw; EvClose]
  | Completed =>
      [EvSavefig output_path save_kw; EvClose; EvPrint confirmation]
  end.

(** The arrows among the patches added, as (start, end, coordsA, coordsB). *)
Definition arrow_of_event (e : Event) : option (Q * Q * (Q * Q) * string * string) :=
  match e with
  | EvAddPatch (ConnectionPatch a b ca cb _) => Some (a, b, ca, cb)
  | _ => None
  end.

(** Whether a point lies on the outline of the rectangle a box patch is
    given by (its [xy], [width] and [height], before padding). *)
Definition on_outline (p : Q * Q) (b : Patch) : bool :=
  match b with
  | FancyBboxPatch (x, y) wd ht _ =>
      let '(px, py) := p in
      ((Qeq_bool px x || Qeq_bool px (x + wd))
         && Qle_bool y py && Qle_bool py (y + ht))
      || ((Qeq_bool py y || Qeq_bool py (y + ht))
            && Qle_bool x px && Qle_bool px (x + wd))
  | ConnectionPatch _ _ _ _ _ => false
  end.

(** The box whose label text is [title]: the last box added before the
    text [title] was placed. *)
Fixpoint box_titled_from (title : string) (cur : option Patch)
    (l : list Artist) : option Patch :=
  match l with
  | [] => None
  | Text _ _ s _ :: l' =>
      if String.eqb s title then cur else box_titled_from title cur l'
  | APatch (FancyBboxPatch xy wd ht kw) :: l' =>
      box_titled_from title (Some (FancyBboxPatch xy wd ht kw)) l'
  | APatch _ :: l' => box_titled_from title cur l'
  end.

Definition box_titled (title : string) : option Patch :=
  box_titled_from title None drawing.

(** The boxes an arrow is meant to join, by the title placed in each. *)
Definition arrow_ends : list (string * string) :=
  [ ("PHASE 1: INPUT", "PHASE 2: THINKING");
    ("PHASE 2: THINKING", "PHASE 3: TOOLS");
    ("PHASE 3: TOOLS", "PHASE 4: SYNTHESIS");
    ("AVAILABLE TOOLS", "PHASE 3: TOOLS");
    ("HASHTAG TOOL FORCING", "PHASE 1: INPUT") ].

Definition joins (a : Q * Q * (Q * Q) * string * string)
    (ends : string * string) : bool :=
  let '(p, q, _, _) := a in
  match box_titled (fst ends), box_titled (snd ends) with
  | Some b1, Some b2 => on_outline p b1 && on_outline q b2
  | _, _ => false
  end.

(** The arrows a figure holds: the [ConnectionPatch] artists of its axes,
    in the order they were added, with their keywords. *)
Definition connection_of (a : Artist) : option Patch :=
  match a with
  | APatch (ConnectionPatch a b ca cb kw) => Some (ConnectionPatch a b ca cb kw)
  | _ => None
  end.

Definition arrows_on (g : figure_state) : list Patch :=
  omap connection_of (flat_map children (fig_axes g)).

(** The arrows passed to [add_patch], with their keywords. *)
Definition arrow_patch_of_event (e : Event) : option Patch :=
  match e with
  | EvAddPatch p => connection_of (APatch p)
  | _ => None
  end.

Definition ends_of (p : Patch) : option (Q * Q * (Q * Q) * string * string) :=
  match p with
  | ConnectionPatch a b ca cb _ => Some (a, b, ca, cb)
  | FancyBboxPatch _ _ _ _ => None
  end.

Fixpoint arrowstyle_of (kw : list kwarg) : option string :=
  match kw with
  | [] => None
  | arrowstyle v :: _ => Some v
  | _ :: kw' => arrowstyle_of kw'
  end.

(** [arrowstyle="->"] draws a head at the second point only: the arrow
    points from its first point to its second. *)
Definition directed (p : Patch) : bool :=
  match p with
  | ConnectionPatch _ _ _ _ kw =>
      match arrowstyle_of kw with
      | Some v => String.eqb v "->"
      | None => false
      end
  | FancyBboxPatch _ _ _ _ => false
  end.


(** ** Sample worlds *)

Definition png_magic : list byte := [x89; x50; x4e; x47].

(** A platform on which nothing goes wrong: no protected file, no write
    fault, the Agg backend, a standard output that takes what it gets. *)
Definition sound_platform : Platform :=
  mkPlatform ∅ None true
    (fun v => String.eqb v "agg" || String.eqb v "Agg") true.

(** A fresh process on the author's machine: the target directory exists
    and is writable, the terminal takes UTF-8. *)
Definition home_world : World :=
  mkWorld ["langgraph_diagram.py"] ∅ [] (fun _ _ => png_magic)
          sound_platform {[ output_dir := true ]} ∅ utf_8 [] [] [].

(** The same with a terminal that takes ASCII only. *)
Definition ascii_world : World :=
  mkWorld ["langgraph_diagram.py"] ∅ [] (fun _ _ => png_magic)
          sound_platform {[ output_dir := true ]} ∅ ascii_only [] [] [].

(** A machine without the target directory. *)
Definition other_world : World :=
  mkWorld ["langgraph_diagram.py"] ∅ [] (fun _ _ => png_magic)
          sound_platform {[ "/tmp" := true ]} ∅ utf_8 [] [] [].

(** The target directory exists but is read-only. *)
Definition readonly_world : World :=
  mkWorld ["langgraph_diagram.py"] ∅ [] (fun _ _ => png_magic)
          sound_platform {[ output_dir := false ]} ∅ utf_8 [] [] [].

(** An image from an earlier run, and another file on the machine. *)
Definition old_image : list byte := [x47; x49; x46; x38; x39; x61].

Definition hosts : list byte := [x31; x32; x37].

(** The author's machine with an earlier image in place and a device that
    fails after two bytes of a write. *)
Definition disk_full_world : World :=
  mkWorld ["langgraph_diagram.py"] ∅ [] (fun _ _ => png_magic)
          (mkPlatform ∅ (Some 2%nat) true
             (fun v => String.eqb v "agg" || String.eqb v "Agg") true)
          {[ output_dir := true ]}
          {[ output_path := old_image; "/etc/hosts" := hosts ]}
          utf_8 [] [] [].

(** The output path is taken by a directory. *)
Definition occupied_world : World :=
  mkWorld ["langgraph_diagram.py"] ∅ [] (fun _ _ => png_magic)
          sound_platform {[ output_dir := true; output_path := true ]}
          {[ "/etc/hosts" := hosts ]} utf_8 [] [] [].

(** An earlier image is in place and is write-protected. *)
Definition protected_world : World :=
  mkWorld ["langgraph_diagram.py"] ∅ [] (fun _ _ => png_magic)
          (mkPlatform {[ output_path ]} None true
             (fun v => String.eqb v "agg" || String.eqb v "Agg") true)
          {[ output_dir := true ]}
          {[ output_path := old_image; "/etc/hosts" := hosts ]}
          utf_8 [] [] [].

(** A component of the path is a regular file. *)
Definition file_in_the_way_world : World :=
  mkWorld ["langgraph_diagram.py"] ∅ [] (fun _ _ => png_magic)
          sound_platform {[ "/Users/karwo09" := true ]}
          {[ "/Users/karwo09/code" := hosts ]} utf_8 [] [] [].

(** The author's machine with standard output redirected to a pipe that
    has been closed. *)
Definition closed_pipe_world : World :=
  mkWorld ["langgraph_diagram.py"] ∅ [] (fun _ _ => png_magic)
          (mkPlatform ∅ None true
             (fun v => String.eqb v "agg" || String.eqb v "Agg") false)
          {[ output_dir := true ]} ∅ utf_8 [] [] [].

(** ** Layout of the drawing *)

Definition artist_of_event (e : Event) : option Artist :=
  match e with
  | EvText x y s kw => Some (Text x y s kw)
  | EvAddPatch p => Some (APatch p)
  | _ => None
  end.

(** The artists a run places on the canvas, in call order. *)
Definition drawn (w : World) : list Artist :=
  omap artist_of_event (calls_of_run w).

(** The limits a list of calls sets, when it sets each exactly once. *)
Definition canvas_limits (l : list Event) : option (Q * Q * (Q * Q)) :=
  match omap (fun e => match e with
                       | EvSetXlim lo hi => Some (lo, hi)
                       | _ => None
                       end) l,
        omap (fun e => match e with
                       | EvSetYlim lo hi => Some (lo, hi)
                       | _ => None
                       end) l with
  | [xl], [yl] => Some (xl, yl)
  | _, _ => None
  end.

(** The padding of [boxstyle="round,pad=0.1"], in data units. *)
Definition box_pad : Q := 0.1.

Definition box_of (a : Artist) : option Patch :=
  match a with
  | APatch (FancyBboxPatch xy wd ht kw) => Some (FancyBboxPatch xy wd ht kw)
  | _ => None
  end.

Definition boxes (l : list Artist) : list Patch := omap box_of l.

Fixpoint boxstyle_of (kw : list kwarg) : option string :=
  match kw with
  | [] => None
  | boxstyle v :: _ => Some v
  | _ :: kw' => boxstyle_of kw'
  end.

Definition patch_kw (p : Patch) : list kwarg :=
  match p with
  | FancyBboxPatch _ _ _ kw => kw
  | ConnectionPatch _ _ _ _ kw => kw
  end.

(** The points that fix where an artist sits: a text's anchor, the two
    opposite corners of a box's outline grown by its padding, an arrow's
    two ends. *)
Definition footprint (a : Artist) : list (Q * Q) :=
  match a with
  | Text x y _ _ => [(x, y)]
  | APatch (FancyBboxPatch (x, y) wd ht _) =>
      [(x - box_pad, y - box_pad)%Q; (x + wd + box_pad, y + ht + box_pad)%Q]
  | APatch (ConnectionPatch a b _ _ _) => [a; b]
  end.

Definition within (lim : Q * Q) (v : Q) : Prop :=
  (fst lim <= v)%Q /\ (v <= snd lim)%Q.

Definition within_b (lim : Q * Q) (v : Q) : bool :=
  Qle_bool (fst lim) v && Qle_bool v (snd lim).

Definition Qlt_b (a b : Q) : bool := negb (Qle_bool b a).

(** Two boxes are apart when their padded outlines are separated along
    one of the axes. *)
Definition apart (b1 b2 : Patch) : bool :=
  match b1, b2 with
  | FancyBboxPatch (x1, y1) w1 h1 _, FancyBboxPatch (x2, y2) w2 h2 _ =>
      (Qlt_b (x1 + w1 + box_pad) (x2 - box_pad)
         || Qlt_b (x2 + w2 + box_pad) (x1 - box_pad))
      || (Qlt_b (y1 + h1 + box_pad) (y2 - box_pad)
            || Qlt_b (y2 + h2 + box_pad) (y1 - box_pad))
  | _, _ => false
  end.

Fixpoint pairwise {A} (R : A -> A -> bool) (l : list A) : bool :=
  match l with
  | [] => true
  | x :: l' => forallb (R x) l' && pairwise R l'
  end.

(** A point inside (or on the outline of) the rectangle of a box. *)
Definition inside (p : Q * Q) (b : Patch) : bool :=
  match b with
  | FancyBboxPatch (x, y) wd ht _ =>
      within_b (x, x + wd)%Q (fst p) && within_b (y, y + ht)%Q (snd p)
  | ConnectionPatch _ _ _ _ _ => false
  end.

Definition strictly_inside (p : Q * Q) (b : Patch) : bool :=
  match b with
  | FancyBboxPatch (x, y) wd ht _ =>
      Qlt_b x (fst p) && Qlt_b (fst p) (x + wd)
        && Qlt_b y (snd p) && Qlt_b (snd p) (y + ht)
  | ConnectionPatch _ _ _ _ _ => false
  end.

Definition is_text (a : Artist) : bool :=
  match a with Text _ _ _ _ => true | APatch _ => false end.

(** Every text is anchored inside the box added last before it; an arrow
    ends the run of texts that belong to a box.  [cur] is that box. *)
Fixpoint labels_inside (cur : option Patch) (l : list Artist) : bool :=
  match l with
  | [] => true
  | Text x y _ _ :: l' =>
      match cur with
      | Some b => inside (x, y) b
      | None => true
      end && labels_inside cur l'
  | APatch (FancyBboxPatch xy wd ht kw) :: l' =>
      labels_inside (Some (FancyBboxPatch xy wd ht kw)) l'
  | APatch (ConnectionPatch _ _ _ _ _) :: l' => labels_inside None l'
  end.

(** The texts placed while no box is current: before the first box or
    after an arrow. *)
Fixpoint unboxed_texts (cur : option Patch) (l : list Artist) : list string :=
  match l with
  | [] => []
  | Text _ _ s _ :: l' =>
      match cur with
      | Some _ => unboxed_texts cur l'
      | None => s :: unboxed_texts cur l'
      end
  | APatch (FancyBboxPatch xy wd ht kw) :: l' =>
      unboxed_texts (Some (FancyBboxPatch xy wd ht kw)) l'
  | APatch (ConnectionPatch _ _ _ _ _) :: l' => unboxed_texts None l'
  end.

(** The point of the segment from [a] to [b] at parameter [t]. *)
Definition point_at (a b : Q * Q) (t : Q) : Q * Q :=
  (fst a + t * (fst b - fst a), snd a + t * (snd b - snd a))%Q.

(** * Symbolic execution of the script *)

Section Stepping.
Context {B : Type} (k : unit -> Py B).
Variables (av : list string) (en : gmap string string) (si : list string)
          (pe : figure_state -> list kwarg -> list byte) (pf : Platform)
          (ds : gmap string bool) (fl : gmap string (list byte))
          (se : Encoding) (so : list string)
          (n : nat) (g : figure_state) (fg : list (nat * figure_state))
          (lg : list Event).

Lemma alter_fig_head f : alter_fig n f ((n, g) :: fg) = (n, f g) :: fg.
Proof. cbn. by rewrite Nat.eqb_refl. Qed.

Lemma bind_axes_call i e f :
  py_bind (axes_call (n, i) e f) k
    (mkWorld av en si pe pf ds fl se so ((n, g) :: fg) lg)
  = k tt (mkWorld av en si pe pf ds fl se so
            ((n, alter_axes i f g) :: fg) (e :: lg)).
Proof.
  unfold py_bind, axes_call, record, set_figs.
  cbn [figs fst snd argv environ stdin png_encoder platform dirs files
       stdout_encoding stdout log].
  by rewrite alter_fig_head.
Qed.

Lemma bind_tight_layout :
  py_bind plt.tight_layout k
    (mkWorld av en si pe pf ds fl se so ((n, g) :: fg) lg)
  = k tt (mkWorld av en si pe pf ds fl se so
            ((n, mkFigure (fig_kw g) (fig_axes g) true) :: fg)
            (EvTightLayout :: lg)).
Proof.
  unfold py_bind, plt.tight_layout, plt.gcf, py_bind, record, set_figs.
  cbn [figs fst snd argv environ stdin png_encoder platform dirs files
       stdout_encoding stdout log].
  by rewrite alter_fig_head.
Qed.
End Stepping.

Lemma bind_getitem {B} d key v (k : string -> Py B) w :
  dict_get d key = Some v -> py_bind (getitem d key) k w = k v w.
Proof. intros H. unfold py_bind, getitem. by rewrite H. Qed.

Lemma bind_subplots {B} r c kw (k : nat * AxesRef -> Py B)
    av en si pe pf ds fl se so fg lg :
  py_bind (plt.subplots r c kw) k (mkWorld av en si pe pf ds fl se so fg lg)
  = k (fresh_num fg, (fresh_num fg, 0%nat))
      (mkWorld av en si pe pf ds fl se so
         ((fresh_num fg, mkFigure kw (replicate (r * c) new_axes) false) :: fg)
         (EvSubplots r c kw :: lg)).
Proof. reflexivity. Qed.

Ltac step :=
  first [ rewrite bind_axes_call
        | erewrite bind_getitem by reflexivity ];
  cbv beta zeta.

(** The export part of the script, from the state in which the canvas is
    built. *)
Lemma open_error_built w :
  open_error output_path (built w) = open_error output_path w.
Proof. reflexivity. Qed.

Lemma short_write_built data w :
  short_write data (built w) = short_write data w.
Proof. reflexivity. Qed.

Lemma export_from_built w :
  py_bind (plt.savefig output_path save_kw)
    (fun _ => py_bind plt.close (fun _ => print confirmation)) (built w)
  = outcome w.
Proof.
  unfold outcome, stage.
  unfold py_bind at 1. unfold plt.savefig, py_bind, plt.gcf.
  change (figs (built w)) with ((fresh_num (figs w), diagram) :: figs w).
  cbv beta iota.
  rewrite open_error_built.
  destruct (open_error output_path w) as [e|]; [reflexivity|].
  change (png_encoder (built w)) with (png_encoder w). cbv zeta.
  rewrite short_write_built.
  destruct (short_write (png_encoder w diagram save_kw) w) as [m|];
    [reflexivity|].
  unfold plt.close, print.
  match goal with
  | |- context [encodable ?x confirmation] =>
      change x with (stdout_encoding w)
  end.
  destruct (encodable (stdout_encoding w) confirmation); reflexivity.
Qed.

(** Whatever the world, the script behaves as [outcome] says. *)
Lemma run_spec w : create_langgraph_diagram w = outcome w.
Proof.
  rewrite <- export_from_built.
  destruct w as [av en si pe pf ds fl se so fg lg].
  unfold create_langgraph_diagram, mbind, py_mbind.
  rewrite bind_subplots. cbv beta iota zeta.
  unfold Axes.set_xlim, Axes.set_ylim, Axes.axis, Axes.text, Axes.add_patch.
  repeat step.
  rewrite bind_tight_layout.
  reflexivity.
Qed.


(** * Consequences used by the claims *)

Lemma python_run_outcome w :
  python_run w = match outcome w with
                 | Ok _ w' => (0%Z, w')
                 | Raise _ w' => (1%Z, w')
                 end.
Proof.
  unfold python_run.
  change (module_body "__main__") with create_langgraph_diagram.
  by rewrite run_spec.
Qed.

(** A run ends in one of four ways. *)
Inductive run_case (w : World) : Z -> World -> Prop :=
| run_no_open e :
    stage w = OpenFailed e -> run_case w 1%Z (built w)
| run_short_write n :
    stage w = WriteFailed n -> run_case w 1%Z (truncated n w)
| run_no_print :
    stage w = PrintFailed -> run_case w 1%Z (exported w)
| run_complete :
    stage w = Completed -> run_case w 0%Z (finished w).

Lemma python_run_case w status w' :
  python_run w = (status, w') -> run_case w status w'.
Proof.
  rewrite python_run_outcome. unfold outcome.
  destruct (stage w) as [e|n| |] eqn:Hs; intros [= <- <-].
  - by apply (run_no_open w e).
  - by apply (run_short_write w n).
  - by apply run_no_print.
  - by apply run_complete.
Qed.


Lemma open_error_finished w :
  open_error output_path w = None ->
  open_error output_path (finished w) = None.
Proof.
  unfold open_error.
  change (dirs (finished w)) with (dirs w).
  change (platform (finished w)) with (platform w).
  destruct (dirs w !! dirname output_path) as [wr|]; [done|].
  intros H. destruct (blocked_by_file output_path w); discriminate H.
Qed.

(** Success is stable: the world a complete run leaves lets the next run
    complete. *)
Lemma stage_finished w :
  stage w = Completed -> stage (finished w) = Completed.
Proof.
  unfold stage. intros H.
  destruct (open_error output_path w) as [e|] eqn:Ho; [discriminate H|].
  rewrite (open_error_finished _ Ho).
  change (png_encoder (finished w)) with (png_encoder w).
  change (short_write (png_encoder w diagram save_kw) (finished w))
    with (short_write (png_encoder w diagram save_kw) w).
  change (stdout_encoding (finished w)) with (stdout_encoding w).
  exact H.
Qed.

Lemma drop_old_events (new old : list Event) :
  drop (length old) (rev (new ++ old)) = rev new.
Proof.
  rewrite rev_app_distr. apply drop_app_length'. by rewrite length_rev.
Qed.

Lemma calls_of_run_spec w :
  calls_of_run w = build_events ++ EvTightLayout :: export_calls w.
Proof.
  unfold calls_of_run, export_calls. rewrite python_run_outcome. unfold outcome.
  destruct (stage w) as [e|n| |]; cbn [snd]; unfold events.
  - change (log (built w)) with ([EvTightLayout] ++ rev build_events ++ log w).
    rewrite app_assoc, drop_old_events. by vm_compute.
  - change (log (truncated n w))
      with ([EvTightLayout] ++ rev build_events ++ log w).
    rewrite app_assoc, drop_old_events. by vm_compute.
  - change (log (exported w))
      with ([EvClose; EvSavefig output_path save_kw; EvTightLayout]
              ++ rev build_events ++ log w).
    rewrite app_assoc, drop_old_events. by vm_compute.
  - change (log (finished w))
      with ([EvPrint confirmation; EvClose; EvSavefig output_path save_kw;
             EvTightLayout] ++ rev build_events ++ log w).
    rewrite app_assoc, drop_old_events. by vm_compute.
Qed.


Lemma fresh_num_above fs m : m ∈ (fst <$> fs) -> (m < fresh_num fs)%nat.
Proof.
  unfold fresh_num. induction fs as [|[a g] fs IH]; cbn.
  - by intros ?%elem_of_nil.
  - intros [->|H]%elem_of_cons; [lia|]. specialize (IH H). lia.
Qed.

Lemma success_inv w w' :
  python_run w = (0%Z, w') -> stage w = Completed /\ w' = finished w.
Proof. intros H%python_run_case. by inversion H. Qed.

Lemma function_returns_inv w w' :
  create_langgraph_diagram w = Ok tt w' -> python_run w = (0%Z, w').
Proof.
  intros H. unfold python_run.
  change (module_body "__main__") with create_langgraph_diagram.
  by rewrite H.
Qed.

Lemma function_raises_inv w w' e :
  create_langgraph_diagram w = Raise e w' -> python_run w = (1%Z, w').
Proof.
  intros H. unfold python_run.
  change (module_body "__main__") with create_langgraph_diagram.
  by rewrite H.
Qed.

Lemma calls_of_success w w' :
  python_run w = (0%Z, w') ->
  calls_of_run w
  = build_events ++ [EvTightLayout; EvSavefig output_path save_kw; EvClose;
                     EvPrint confirmation].
Proof.
  intros (Hs & _)%success_inv.
  rewrite calls_of_run_spec. unfold export_calls. by rewrite Hs.
Qed.

Lemma invocations_S k :
  invocations (S k)
  = py_bind create_langgraph_diagram (fun _ => invocations k).
Proof. reflexivity. Qed.

Lemma py_bind_eq {A B} (m : Py A) (k : A -> Py B) w r :
  m w = r ->
  py_bind m k w = match r with
                  | Ok a w' => k a w'
                  | Raise e w' => Raise e w'
                  end.
Proof. intros <-. reflexivity. Qed.

Lemma invocations_keep_figs k :
  forall w w', invocations k w = Ok tt w' -> figs w' = figs w.
Proof.
  induction k as [|k IH]; intros w w' H.
  - injection H as <-. reflexivity.
  - rewrite invocations_S, (py_bind_eq _ _ _ _ (run_spec w)) in H.
    unfold outcome in H.
    destruct (stage w); try discriminate.
    rewrite (IH _ _ H). reflexivity.
Qed.




(** ** The script on the sample worlds *)

Example run_home :
  create_langgraph_diagram home_world = Ok tt (finished home_world)
  /\ stdout (finished home_world) = [confirmation]
  /\ files (finished home_world) !! output_path = Some png_magic
  /\ figs (finished home_world) = [].
Proof. vm_compute. repeat split; reflexivity. Qed.

Example run_missing_directory :
  create_langgraph_diagram other_world
  = Raise (FileNotFoundError output_path) (built other_world)
  /\ python_run other_world = (1%Z, built other_world).
Proof. vm_compute. split; reflexivity. Qed.

Example run_readonly_directory :
  create_langgraph_diagram readonly_world
  = Raise (PermissionError output_path) (built readonly_world)
  /\ files (built readonly_world) = ∅.
Proof. vm_compute. split; reflexivity. Qed.

Example run_path_is_directory :
  create_langgraph_diagram occupied_world
  = Raise (IsADirectoryError output_path) (built occupied_world)
  /\ files (built occupied_world) = files occupied_world.
Proof. vm_compute. split; reflexivity. Qed.

Example run_protected_file :
  create_langgraph_diagram protected_world
  = Raise (PermissionError output_path) (built protected_world)
  /\ files (built protected_world) !! output_path = Some old_image.
Proof. vm_compute. split; reflexivity. Qed.

Example run_file_in_the_way :
  create_langgraph_diagram file_in_the_way_world
  = Raise (NotADirectoryError output_path) (built file_in_the_way_world).
Proof. vm_compute. reflexivity. Qed.

Example run_disk_full :
  create_langgraph_diagram disk_full_world
  = Raise (OSError output_path) (truncated 2 disk_full_world)
  /\ files (truncated 2 disk_full_world) !! output_path = Some [x89; x50].
Proof. vm_compute. split; reflexivity. Qed.

Example run_ascii_stdout :
  create_langgraph_diagram ascii_world
  = Raise (UnicodeEncodeError confirmation) (exported ascii_world)
  /\ is_ascii confirmation = false.
Proof. vm_compute. split; reflexivity. Qed.

Example run_three_times :
  exists w, invocations 3 home_world = Ok tt w
            /\ stdout w = [confirmation; confirmation; confirmation]
            /\ figs w = [].
Proof. eexists. vm_compute. repeat split; reflexivity. Qed.

Example imported_as_module_does_nothing :
  module_body "langgraph_diagram" home_world = Ok tt home_world.
Proof. reflexivity. Qed.

Example process_home :
  process_run home_world = (0%Z, finished home_world).
Proof. vm_compute. reflexivity. Qed.

Example process_closed_pipe :
  fst (process_run closed_pipe_world) = 120%Z
  /\ stdout (snd (process_run closed_pipe_world)) = []
  /\ files (snd (process_run closed_pipe_world)) !! output_path
     = Some png_magic.
Proof. vm_compute. repeat split; reflexivity. Qed.

(** Why the function raises, when it does. *)
Lemma raises_inv w e w' :
  create_langgraph_diagram w = Raise e w' ->
  (stage w = OpenFailed e /\ w' = built w)
  \/ (exists n, stage w = WriteFailed n /\ e = OSError output_path
                /\ w' = truncated n w)
  \/ (stage w = PrintFailed /\ e = UnicodeEncodeError confirmation
      /\ w' = exported w).
Proof.
  rewrite run_spec. unfold outcome.
  destruct (stage w) as [e0|n| |]; intros [= <- <-].
  - by left.
  - right. left. by exists n.
  - right. by right.
Qed.

Lemma stage_open_failed w e :
  stage w = OpenFailed e -> open_error output_path w = Some e.
Proof.
  unfold stage. destruct (open_error output_path w) as [e0|].
  - by intros [= ->].
  - destruct (short_write (png_encoder w diagram save_kw) w); [done|].
    by destruct (encodable (stdout_encoding w) confirmation).
Qed.

Lemma stage_write_failed w n :
  stage w = WriteFailed n ->
  open_error output_path w = None
  /\ (n < length (png_encoder w diagram save_kw))%nat.
Proof.
  unfold stage. destruct (open_error output_path w) as [e0|]; [done|].
  unfold short_write. destruct (write_limit (platform w)) as [m|].
  - destruct (Nat.ltb_spec m (length (png_encoder w diagram save_kw))).
    + by intros [= <-].
    + by destruct (encodable (stdout_encoding w) confirmation).
  - by destruct (encodable (stdout_encoding w) confirmation).
Qed.

Lemma open_error_is_os fname w e :
  open_error fname w = Some e -> is_os_error e = true.
Proof.
  unfold open_error. destruct (dirs w !! dirname fname) as [wr|].
  - destruct (dirs w !! fname); [by intros [= <-]|].
    destruct (wr && negb (bool_decide (fname ∈ readonly (platform w))));
      [done | by intros [= <-]].
  - destruct (blocked_by_file fname w); by intros [= <-].
Qed.

(** What a failed write leaves at the paths of the file system. *)
Lemma after_failed_write_other fname part w (p : string) :
  p <> fname -> after_failed_write fname part w !! p = files w !! p.
Proof.
  intros Hp. unfold after_failed_write.
  destruct (files w !! fname), (cleans_up (platform w));
    by rewrite ?lookup_insert_ne.
Qed.

Lemma after_failed_write_at fname part w :
  after_failed_write fname part w !! fname = files w !! fname
  \/ after_failed_write fname part w !! fname = Some part.
Proof.
  unfold after_failed_write.
  destruct (files w !! fname) eqn:E, (cleans_up (platform w));
    rewrite ?lookup_insert_eq; auto.
Qed.

(** * The claims *)

(** C1. Every successful run writes exactly one file: the image at the
    literal absolute path, rendered from the finished canvas with
    [dpi=300], [bbox_inches='tight'] and [facecolor='white'] (the [.png]
    suffix selects the raster format).  Every other path of the file
    system, and the set of directories, is as it was; the run makes one
    [savefig] call. *)
Theorem C1_one_image_file (w w' : World) :
  python_run w = (0%Z, w') ->
  files w'
  = <[ "/Users/karwo09/code/voice-assistant/langgraph_architecture.png"
       := png_encoder w diagram
            [dpi 300; bbox_inches "tight"; facecolor "white"] ]> (files w)
  /\ (forall p : string,
        p <> "/Users/karwo09/code/voice-assistant/langgraph_architecture.png" ->
        files w' !! p = files w !! p)
  /\ dirs w' = dirs w
  /\ List.filter is_savefig (calls_of_run w)
     = [EvSavefig
          "/Users/karwo09/code/voice-assistant/langgraph_architecture.png"
          [dpi 300; bbox_inches "tight"; facecolor "white"]].
Proof.
  intros H. pose proof (calls_of_success _ _ H) as Hc.
  apply success_inv in H as (_ & ->).
  split; [reflexivity|]. split.
  - intros p Hp. change (files (finished w))
      with (<[output_path := png_encoder w diagram save_kw]> (files w)).
    by rewrite lookup_insert_ne.
  - split; [reflexivity|]. rewrite Hc. by vm_compute.
Qed.

Lemma C1_one_image_file_witness :
  python_run home_world = (0%Z, finished home_world)
  /\ files (finished home_world) !! output_path = Some png_magic.
Proof.
  assert (H : python_run home_world = (0%Z, finished home_world))
    by (vm_compute; reflexivity).
  split; [exact H|].
  destruct (C1_one_image_file home_world (finished home_world) H) as [-> _].
  apply lookup_insert_eq.
Defined.

(** C2, as stated, fails twice.  Its last clause ("there is no other
    failure mode"): with the target directory writable and a standard
    output that takes ASCII only, the save succeeds, the file is complete,
    and the run still ends with status 1, because the confirmation line
    (which starts with a non-ASCII character) cannot be encoded.  Its
    clause "produces no partial or corrupt output file": with an earlier
    image in place and a device that fails after two bytes, the run ends
    with status 1 and the output path holds the first two bytes of the
    new image, neither the old file nor the new one. *)
Lemma C2_counterexamples :
  (dirs ascii_world !! output_dir = Some true
   /\ fst (python_run ascii_world) = 1%Z
   /\ files (snd (python_run ascii_world)) !! output_path = Some png_magic
   /\ stdout (snd (python_run ascii_world)) = [])
  /\ (fst (python_run disk_full_world) = 1%Z
      /\ files disk_full_world !! output_path = Some old_image
      /\ png_encoder disk_full_world diagram save_kw = [x89; x50; x4e; x47]
      /\ files (snd (python_run disk_full_world)) !! output_path
         = Some [x89; x50]).
Proof. vm_compute. repeat split; reflexivity. Qed.

(** C2, amended.  If writing the output file fails, that is, [savefig]
    raises an [OSError] (the file cannot be opened: directory missing or
    not writable, path taken by a directory, file write-protected; or the
    write fails part-way), the run ends with exit status 1 without
    recovery or retry: the calls made are those that build and lay out the
    canvas and nothing after them, nothing is printed, the figure stays
    open.  Every other path of the file system is untouched.  When the
    file could not be opened the file system is unchanged; when the write
    failed part-way the output path holds what it held before or a
    truncated image. *)
Theorem C2_failed_save (w w' : World) (e : exn) :
  create_langgraph_diagram w = Raise e w' ->
  is_os_error e = true ->
  python_run w = (1%Z, w')
  /\ calls_of_run w = build_events ++ [EvTightLayout]
  /\ stdout w' = stdout w
  /\ figs w' = (fresh_num (figs w), diagram) :: figs w
  /\ dirs w' = dirs w
  /\ (forall p : string, p <> output_path -> files w' !! p = files w !! p)
  /\ (open_error output_path w <> None -> files w' = files w)
  /\ (files w' !! output_path = files w !! output_path
      \/ exists n : nat,
           (n < length (png_encoder w diagram save_kw))%nat
           /\ files w' !! output_path
              = Some (take n (png_encoder w diagram save_kw))).
Proof.
  intros H He.
  pose proof (function_raises_inv _ _ _ H) as Hr.
  pose proof (calls_of_run_spec w) as Hc. unfold export_calls in Hc.
  apply raises_inv in H as [[Hs ->]|[(n & Hs & -> & ->)|(_ & -> & _)]];
    [| |discriminate He].
  - rewrite Hs in Hc.
    split; [exact Hr|]. split; [exact Hc|]. clear Hr Hc.
    repeat split; try reflexivity. left. reflexivity.
  - rewrite Hs in Hc. apply stage_write_failed in Hs as [Ho Hn].
    split; [exact Hr|]. split; [exact Hc|]. clear Hr Hc.
    split; [reflexivity|]. split; [reflexivity|]. split; [reflexivity|].
    change (files (truncated n w))
      with (after_failed_write output_path
              (take n (png_encoder w diagram save_kw)) w).
    split; [|split].
    + intros p Hp. by apply after_failed_write_other.
    + intros Hne. exfalso. apply Hne. exact Ho.
    + destruct (after_failed_write_at output_path
                  (take n (png_encoder w diagram save_kw)) w) as [E|E].
      * left. exact E.
      * right. exists n. split; [exact Hn | exact E].
Qed.

Lemma C2_failed_save_witness :
  create_langgraph_diagram disk_full_world
  = Raise (OSError output_path) (truncated 2 disk_full_world)
  /\ python_run disk_full_world = (1%Z, truncated 2 disk_full_world)
  /\ files (truncated 2 disk_full_world) !! "/etc/hosts"
     = files disk_full_world !! "/etc/hosts".
Proof.
  assert (H : create_langgraph_diagram disk_full_world
              = Raise (OSError output_path) (truncated 2 disk_full_world))
    by (vm_compute; reflexivity).
  split; [exact H|].
  destruct (C2_failed_save _ _ _ H eq_refl) as (Hr & _ & _ & _ & _ & Hf & _).
  split; [exact Hr|].
  apply Hf. discriminate.
Defined.

(** C3. Two successful runs under the same rasteriser leave byte-for-byte
    the same file at the output path, whatever else differs between the
    two worlds (arguments, environment, earlier files, figures open
    before, earlier output): the bytes are the encoding of one constant
    figure under constant [savefig] keywords. *)
Theorem C3_deterministic_output (w1 w2 w1' w2' : World) :
  png_encoder w1 = png_encoder w2 ->
  python_run w1 = (0%Z, w1') ->
  python_run w2 = (0%Z, w2') ->
  files w1' !! output_path = files w2' !! output_path
  /\ files w1' !! output_path = Some (png_encoder w1 diagram save_kw).
Proof.
  intros He (_ & ->)%success_inv (_ & ->)%success_inv.
  change (files (finished w1))
    with (<[output_path := png_encoder w1 diagram save_kw]> (files w1)).
  change (files (finished w2))
    with (<[output_path := png_encoder w2 diagram save_kw]> (files w2)).
  rewrite !lookup_insert_eq, He. done.
Qed.

(** The second run starts in the world the first one left. *)
Lemma C3_deterministic_output_witness :
  python_run home_world = (0%Z, finished home_world)
  /\ python_run (finished home_world)
     = (0%Z, finished (finished home_world))
  /\ files (finished home_world) !! output_path
     = files (finished (finished home_world)) !! output_path.
Proof.
  assert (H1 : python_run home_world = (0%Z, finished home_world))
    by (vm_compute; reflexivity).
  assert (H2 : python_run (finished home_world)
               = (0%Z, finished (finished home_world)))
    by (vm_compute; reflexivity).
  split; [exact H1|]. split; [exact H2|].
  exact (proj1 (C3_deterministic_output home_world (finished home_world)
                  _ _ eq_refl H1 H2)).
Defined.








Lemma export_calls_not_drawing w :
  List.filter is_drawing (EvTightLayout :: export_calls w) = []
  /\ omap arrow_of_event (EvTightLayout :: export_calls w) = []
  /\ omap arrow_patch_of_event (EvTightLayout :: export_calls w) = [].
Proof. unfold export_calls. by destruct (stage w). Qed.

(** C7. Every run starts by creating the canvas and fixing its logical
    size: a 16 x 12 figure with one axes, horizontal bounds 0..16, vertical
    bounds 0..12, axis decorations off.  These are the first four calls;
    every text or patch is placed after them, and the canvas that is
    saved still has these bounds and hidden axes. *)
Theorem C7_canvas_initialised_first (w : World) :
  take 4 (calls_of_run w)
  = [EvSubplots 1 1 [figsize (16, 12)%Q]; EvSetXlim 0 16; EvSetYlim 0 12;
     EvAxis "off"]
  /\ (forall (i : nat) (e : Event),
        calls_of_run w !! i = Some e -> is_drawing e = true -> (4 <= i)%nat)
  /\ List.filter is_drawing (calls_of_run w) = event_of_artist <$> drawing
  /\ (forall w', python_run w = (0%Z, w') ->
      exists ax,
        files w' !! output_path = Some (png_encoder w diagram save_kw)
        /\ fig_kw diagram = [figsize (16, 12)%Q]
        /\ fig_axes diagram = [ax]
        /\ xlim ax = (0, 16)%Q /\ ylim ax = (0, 12)%Q
        /\ axison ax = false /\ children ax = drawing).
Proof.
  rewrite calls_of_run_spec. split; [reflexivity|]. split; [|split].
  - intros i e Hi He.
    destruct i as [|[|[|[|i]]]]; try lia;
      cbv in Hi; injection Hi as <-; discriminate.
  - rewrite List.filter_app.
    rewrite (proj1 (export_calls_not_drawing w)), app_nil_r.
    by vm_compute.
  - intros w' (_ & ->)%success_inv. eexists. split.
    + change (files (finished w))
        with (<[output_path := png_encoder w diagram save_kw]> (files w)).
      apply lookup_insert_eq.
    + by repeat split.
Qed.

Lemma C7_canvas_initialised_first_witness :
  python_run home_world = (0%Z, finished home_world)
  /\ exists ax,
       files (finished home_world) !! output_path
       = Some (png_encoder home_world diagram save_kw)
       /\ fig_kw diagram = [figsize (16, 12)%Q]
       /\ fig_axes diagram = [ax]
       /\ xlim ax = (0, 16)%Q /\ ylim ax = (0, 12)%Q
       /\ axison ax = false /\ children ax = drawing.
Proof.
  assert (H : python_run home_world = (0%Z, finished home_world))
    by (vm_compute; reflexivity).
  split; [exact H|].
  exact (proj2 (proj2 (proj2 (C7_canvas_initialised_first home_world))) _ H).
Defined.

Lemma arrow_calls_of_run w :
  omap arrow_of_event (calls_of_run w) = omap arrow_of_event build_events
  /\ omap arrow_patch_of_event (calls_of_run w)
     = omap arrow_patch_of_event build_events.
Proof.
  rewrite calls_of_run_spec, !omap_app.
  destruct (export_calls_not_drawing w) as (_ & -> & ->).
  by rewrite !app_nil_r.
Qed.

(** C8. Every run puts exactly five arrows on its canvas, and the canvas
    that is saved holds exactly these five: the figure the run ends with
    is either still in the registry (the save failed) or rendered into
    the output file, and its [ConnectionPatch] artists are the five
    below, the ones passed to [add_patch], in this order.  Each is given
    by two literal points in data coordinates and by nothing else (an
    arrow holds no reference to a box) and carries [arrowstyle="->"], so
    it points from its first point to its second.  The points lie on the
    outlines of the boxes the arrows are meant to join: Phase 1 to
    Phase 2, Phase 2 to Phase 3, Phase 3 to Phase 4, the tools section to
    Phase 3 and the hashtag section to Phase 1. *)
Theorem C8_five_arrows (w w' : World) (status : Z) :
  python_run w = (status, w') ->
  (figs w' = (fresh_num (figs w), diagram) :: figs w
   \/ files w' !! output_path = Some (png_encoder w diagram save_kw))
  /\ (status = 0%Z ->
      files w' !! output_path = Some (png_encoder w diagram save_kw))
  /\ arrows_on diagram
     = [ ConnectionPatch (4, 10.1) (6, 10.1) "data" "data"
           [arrowstyle "->"; shrinkA 5; shrinkB 5; mutation_scale 20;
            fc "#666666"];
         ConnectionPatch (9, 10.1) (11, 10.1) "data" "data"
           [arrowstyle "->"; shrinkA 5; shrinkB 5; mutation_scale 20;
            fc "#666666"];
         ConnectionPatch (12.5, 9.5) (7.5, 8.7) "data" "data"
           [arrowstyle "->"; shrinkA 5; shrinkB 5; mutation_scale 20;
            fc "#666666"];
         ConnectionPatch (4, 5.5) (12.5, 9.5) "data" "data"
           [arrowstyle "->"; shrinkA 5; shrinkB 5; mutation_scale 15;
            fc "green"; alpha 0.7];
         ConnectionPatch (12, 5.5) (2.5, 9.5) "data" "data"
           [arrowstyle "->"; shrinkA 5; shrinkB 5; mutation_scale 15;
            fc "orange"; alpha 0.7] ]%Q
  /\ omap arrow_patch_of_event (calls_of_run w) = arrows_on diagram
  /\ Forall (fun p => directed p = true) (arrows_on diagram)
  /\ omap ends_of (arrows_on diagram) = omap arrow_of_event (calls_of_run w)
  /\ omap arrow_of_event (calls_of_run w)
     = [ ((4, 10.1), (6, 10.1), "data", "data");
         ((9, 10.1), (11, 10.1), "data", "data");
         ((12.5, 9.5), (7.5, 8.7), "data", "data");
         ((4, 5.5), (12.5, 9.5), "data", "data");
         ((12, 5.5), (2.5, 9.5), "data", "data") ]%Q
  /\ length (omap arrow_of_event (calls_of_run w)) = 5%nat
  /\ Forall2 (fun a ends => joins a ends = true)
       (omap arrow_of_event (calls_of_run w)) arrow_ends.
Proof.
  intros H%python_run_case.
  destruct (arrow_calls_of_run w) as [-> ->].
  split; [|split].
  - destruct H as [e Hs|n Hs|Hs|Hs].
    + left. reflexivity.
    + left. reflexivity.
    + right. change (files (exported w))
        with (<[output_path := png_encoder w diagram save_kw]> (files w)).
      apply lookup_insert_eq.
    + right. change (files (finished w))
        with (<[output_path := png_encoder w diagram save_kw]> (files w)).
      apply lookup_insert_eq.
  - intros ->. inversion H; subst.
    change (files (finished w))
      with (<[output_path := png_encoder w diagram save_kw]> (files w)).
    apply lookup_insert_eq.
  - clear H.
    split; [vm_compute; reflexivity|]. split; [vm_compute; reflexivity|].
    split; [repeat constructor|]. split; [vm_compute; reflexivity|].
    split; [vm_compute; reflexivity|]. split; [vm_compute; reflexivity|].
    repeat constructor; vm_compute; reflexivity.
Qed.

(** On a machine without the target directory the five arrows are on the
    figure the run leaves open. *)
Lemma C8_five_arrows_witness :
  python_run other_world = (1%Z, built other_world)
  /\ figs (built other_world) = [(1%nat, diagram)]
  /\ length (arrows_on diagram) = 5%nat.
Proof.
  assert (H : python_run other_world = (1%Z, built other_world))
    by (vm_compute; reflexivity).
  split; [exact H|]. split; [reflexivity|].
  destruct (C8_five_arrows _ _ _ H) as (_ & _ & -> & _).
  reflexivity.
Defined.

(** C9. On success the last line on standard output is the confirmation
    line.  It names the base file name only: it does not contain the
    directory the file is written to (nor any slash), although the file
    is at that directory's path. *)
Theorem C9_message_names_base_only (w w' : World) :
  python_run w = (0%Z, w') ->
  last (stdout w')
  = Some "✅ LangGraph architecture diagram saved as 'langgraph_architecture.png'"
  /\ contains "langgraph_architecture.png" confirmation = true
  /\ contains "/Users/karwo09/code/voice-assistant/" confirmation = false
  /\ contains "/" confirmation = false
  /\ is_Some (files w' !! ("/Users/karwo09/code/voice-assistant/"
                             +:+ "langgraph_architecture.png"))
  /\ List.filter is_savefig (calls_of_run w)
     = [EvSavefig ("/Users/karwo09/code/voice-assistant/"
                     +:+ "langgraph_architecture.png") save_kw].
Proof.
  intros H. pose proof (calls_of_success _ _ H) as Hc.
  apply success_inv in H as (_ & ->).
  split.
  { change (stdout (finished w)) with (stdout w ++ [confirmation]).
    apply last_snoc. }
  split; [vm_compute; reflexivity|].
  split; [vm_compute; reflexivity|].
  split; [vm_compute; reflexivity|].
  change ("/Users/karwo09/code/voice-assistant/"
            +:+ "langgraph_architecture.png") with output_path.
  split.
  - change (files (finished w))
      with (<[output_path := png_encoder w diagram save_kw]> (files w)).
    rewrite lookup_insert_eq. by eexists.
  - rewrite Hc. vm_compute. reflexivity.
Qed.

Lemma C9_message_names_base_only_witness :
  python_run home_world = (0%Z, finished home_world)
  /\ last (stdout (finished home_world)) = Some confirmation.
Proof.
  assert (H : python_run home_world = (0%Z, finished home_world))
    by (vm_compute; reflexivity).
  split; [exact H|].
  exact (proj1 (C9_message_names_base_only _ _ H)).
Defined.

(** C10. When the function returns normally, pyplot's registry of open
    figures is what it was before the call: the figure the call created
    (numbered above all that were open) is no longer registered, a [close]
    follows the [savefig], and from an empty registry none remains.  Any
    number of invocations in one process that return normally leave the
    registry unchanged. *)
Theorem C10_figure_closed (w w' : World) :
  create_langgraph_diagram w = Ok tt w' ->
  figs w' = figs w
  /\ (fresh_num (figs w) ∉ fst <$> figs w')
  /\ (figs w = [] -> figs w' = [])
  /\ (exists pre post,
        calls_of_run w
        = pre ++ [EvSavefig output_path save_kw; EvClose] ++ post)
  /\ (forall (k : nat) (w'' : World),
        invocations k w = Ok tt w'' -> figs w'' = figs w).
Proof.
  intros H%function_returns_inv.
  pose proof (calls_of_success _ _ H) as Hc.
  apply success_inv in H as (_ & ->).
  assert (Hf : figs (finished w) = figs w) by reflexivity.
  split; [exact Hf|]. split; [|split; [|split]].
  - rewrite Hf. intros Hin%fresh_num_above. lia.
  - by rewrite Hf.
  - exists (build_events ++ [EvTightLayout]), [EvPrint confirmation].
    rewrite Hc, <- app_assoc. reflexivity.
  - intros k w''. apply invocations_keep_figs.
Qed.

Lemma C10_figure_closed_witness :
  create_langgraph_diagram home_world = Ok tt (finished home_world)
  /\ figs (finished home_world) = [].
Proof.
  assert (H : create_langgraph_diagram home_world
              = Ok tt (finished home_world))
    by (vm_compute; reflexivity).
  split; [exact H|].
  exact (proj1 (C10_figure_closed _ _ H)).
Defined.

(** * Further properties of the script *)



(** X3. The function never raises [KeyError]: every key it looks up in
    [colors] is present in the dict literal, whatever the world. *)
Theorem no_key_error (w w' : World) (e : exn) :
  create_langgraph_diagram w = Raise e w' ->
  forall k : string, e <> KeyError k.
Proof.
  intros H k ->.
  apply raises_inv in H as [[Hs _]|[(n & _ & He & _)|(_ & He & _)]].
  - apply stage_open_failed, open_error_is_os in Hs. discriminate Hs.
  - discriminate He.
  - discriminate He.
Qed.

Lemma no_key_error_witness :
  create_langgraph_diagram ascii_world
  = Raise (UnicodeEncodeError confirmation) (exported ascii_world)
  /\ UnicodeEncodeError confirmation <> KeyError "arrow".
Proof.
  assert (H : create_langgraph_diagram ascii_world
              = Raise (UnicodeEncodeError confirmation) (exported ascii_world))
    by (vm_compute; reflexivity).
  split; [exact H|].
  exact (no_key_error _ _ _ H "arrow").
Defined.

(** X4. Whatever the outcome, a run leaves alone everything but the output
    file, standard output and the figure registry: the inputs, the
    directories and every file at another path are as before; standard
    output gains the confirmation line or nothing.  The output path keeps
    what it had, or holds the complete image, or, after a write that
    failed part-way, holds a truncated image. *)
Theorem run_frame (w : World) :
  let w' := snd (python_run w) in
  argv w' = argv w /\ environ w' = environ w /\ stdin w' = stdin w
  /\ png_encoder w' = png_encoder w
  /\ dirs w' = dirs w /\ stdout_encoding w' = stdout_encoding w
  /\ (forall p : string, p <> output_path -> files w' !! p = files w !! p)
  /\ (files w' !! output_path = files w !! output_path
      \/ files w' !! output_path = Some (png_encoder w diagram save_kw)
      \/ exists n : nat,
           (n < length (png_encoder w diagram save_kw))%nat
           /\ files w' !! output_path
              = Some (take n (png_encoder w diagram save_kw)))
  /\ (stdout w' = stdout w \/ stdout w' = stdout w ++ [confirmation]).
Proof.
  cbv zeta. rewrite python_run_outcome. unfold outcome.
  assert (Hx : forall p : string, p <> output_path ->
            (<[output_path := png_encoder w diagram save_kw]> (files w)) !! p
            = files w !! p)
    by (intros p Hp; by rewrite lookup_insert_ne).
  assert (Hy : (<[output_path := png_encoder w diagram save_kw]> (files w))
                 !! output_path
               = Some (png_encoder w diagram save_kw))
    by apply lookup_insert_eq.
  destruct (stage w) as [e|n| |] eqn:Hs; cbn [snd].
  - repeat split; try reflexivity; by left.
  - apply stage_write_failed in Hs as [_ Hn].
    change (files (truncated n w))
      with (after_failed_write output_path
              (take n (png_encoder w diagram save_kw)) w).
    repeat split; try reflexivity.
    + intros p Hp. by apply after_failed_write_other.
    + destruct (after_failed_write_at output_path
                  (take n (png_encoder w diagram save_kw)) w) as [E|E].
      * by left.
      * right. right. by exists n.
    + by left.
  - repeat split; try reflexivity; try exact Hx.
    + right. by left.
    + by left.
  - repeat split; try reflexivity; try exact Hx.
    + right. by left.
    + by right.
Qed.

(** On the machine whose device fails, the other file is as it was. *)
Lemma run_frame_witness :
  "/etc/hosts" <> output_path
  /\ files disk_full_world !! "/etc/hosts" = Some hosts
  /\ files (snd (python_run disk_full_world)) !! "/etc/hosts" = Some hosts.
Proof.
  assert (Hp : "/etc/hosts" <> output_path) by discriminate.
  assert (Hh : files disk_full_world !! "/etc/hosts" = Some hosts)
    by (vm_compute; reflexivity).
  split; [exact Hp|]. split; [exact Hh|].
  destruct (run_frame disk_full_world) as (_ & _ & _ & _ & _ & _ & Hf & _).
  rewrite (Hf _ Hp). exact Hh.
Defined.

(** X5. A successful run can be repeated: run again in the world it left,
    the script succeeds again, overwrites the image with the same bytes
    (the file system is the same after two runs as after one), prints
    the line once more and leaves the figure registry unchanged. *)
Theorem rerun_overwrites (w w1 : World) :
  python_run w = (0%Z, w1) ->
  exists w2,
    python_run w1 = (0%Z, w2)
    /\ files w2 = files w1
    /\ stdout w2 = stdout w ++ [confirmation; confirmation]
    /\ figs w2 = figs w.
Proof.
  intros (Hs & ->)%success_inv.
  exists (finished (finished w)). split; [|split; [|split]].
  - rewrite python_run_outcome. unfold outcome.
    by rewrite (stage_finished _ Hs).
  - change (files (finished (finished w)))
      with (<[output_path := png_encoder w diagram save_kw]>
              (<[output_path := png_encoder w diagram save_kw]> (files w))).
    apply insert_insert_eq.
  - change (stdout (finished (finished w)))
      with ((stdout w ++ [confirmation]) ++ [confirmation]).
    by rewrite <- app_assoc.
  - reflexivity.
Qed.

Lemma rerun_overwrites_witness :
  python_run home_world = (0%Z, finished home_world)
  /\ exists w2,
       python_run (finished home_world) = (0%Z, w2)
       /\ files w2 = files (finished home_world)
       /\ stdout w2 = stdout home_world ++ [confirmation; confirmation]
       /\ figs w2 = figs home_world.
Proof.
  assert (H : python_run home_world = (0%Z, finished home_world))
    by (vm_compute; reflexivity).
  split; [exact H|].
  exact (rerun_overwrites _ _ H).
Defined.




Lemma drawn_spec w : drawn w = drawing.
Proof.
  unfold drawn. rewrite calls_of_run_spec, omap_app.
  assert (E : omap artist_of_event (EvTightLayout :: export_calls w) = []).
  { unfold export_calls. by destruct (stage w). }
  rewrite E, app_nil_r. vm_compute. reflexivity.
Qed.

Lemma within_b_true lim v : within_b lim v = true -> within lim v.
Proof.
  unfold within_b, within. intros [H1 H2]%andb_prop.
  split; by apply Qle_bool_iff.
Qed.

Lemma pairwise_lookup {A} (R : A -> A -> bool) (l : list A) :
  (forall x y, R x y = R y x) ->
  pairwise R l = true ->
  forall (i j : nat) (x y : A),
    l !! i = Some x -> l !! j = Some y -> i <> j -> R x y = true.
Proof.
  intros Hsym. induction l as [|a l IH]; intros Hp i j x y Hi Hj Hne.
  - discriminate Hi.
  - cbn in Hp. apply andb_prop in Hp as [Ha Hl].
    rewrite forallb_forall in Ha.
    destruct i as [|i], j as [|j]; cbn in Hi, Hj.
    + contradiction.
    + injection Hi as <-. apply Ha.
      by apply list_elem_of_In, (list_elem_of_lookup_2 _ j).
    + injection Hj as <-. rewrite Hsym. apply Ha.
      by apply list_elem_of_In, (list_elem_of_lookup_2 _ i).
    + apply (IH Hl i j); auto.
Qed.

Lemma apart_sym b1 b2 : apart b1 b2 = apart b2 b1.
Proof.
  destruct b1 as [[x1 y1] w1 h1 k1|], b2 as [[x2 y2] w2 h2 k2|];
    try reflexivity.
  cbn. f_equal; apply orb_comm.
Qed.

Lemma labels_inside_run b x y s kw post :
  forall mid,
    labels_inside (Some b) (mid ++ Text x y s kw :: post) = true ->
    forallb is_text mid = true ->
    inside (x, y) b = true.
Proof.
  induction mid as [|a mid IH]; intros H Hm.
  - cbn in H. by apply andb_prop in H as [H _].
  - cbn in Hm. apply andb_prop in Hm as [Ha Hm].
    destruct a as [x' y' s' kw'|p]; [|discriminate Ha].
    cbn in H. apply andb_prop in H as [_ H]. by apply IH.
Qed.

Lemma labels_inside_sound l :
  forall cur,
    labels_inside cur l = true ->
    forall pre b mid x y s kw post,
      l = pre ++ APatch b :: mid ++ Text x y s kw :: post ->
      box_of (APatch b) = Some b ->
      forallb is_text mid = true ->
      inside (x, y) b = true.
Proof.
  induction l as [|a l IH]; intros cur H pre b mid x y s kw post E Hb Hm.
  - by destruct pre.
  - destruct pre as [|a' pre]; cbn in E; injection E as -> ->.
    + destruct b as [xy wd ht k|]; [|discriminate Hb].
      cbn in H. exact (labels_inside_run _ x y s kw post mid H Hm).
    + destruct a' as [x' y' s' kw'|[xy wd ht k|a0 b0 ca cb k]]; cbn in H.
      * apply andb_prop in H as [_ H]. by eapply IH.
      * by eapply IH.
      * by eapply IH.
Qed.

(** X7. Everything the script places lies on the canvas it set up: with
    the limits set by [set_xlim]/[set_ylim], every text anchor, every
    arrow end and every box outline, grown by its padding of 0.1, is
    within the horizontal and the vertical limits. *)
Theorem drawing_within_canvas (w : World) :
  exists xl yl,
    canvas_limits (calls_of_run w) = Some (xl, yl)
    /\ xl = (0, 16)%Q /\ yl = (0, 12)%Q
    /\ forall a p, In a (drawn w) -> In p (footprint a) ->
         within xl (fst p) /\ within yl (snd p).
Proof.
  exists (0, 16)%Q, (0, 12)%Q. split; [|split; [done|split; [done|]]].
  - rewrite calls_of_run_spec. unfold export_calls.
    destruct (stage w); vm_compute; reflexivity.
  - rewrite drawn_spec. intros a p Ha Hp.
    assert (Hall : forallb (fun a => forallb (fun p =>
                      within_b (0, 16)%Q (fst p) && within_b (0, 12)%Q (snd p))
                      (footprint a)) drawing = true)
      by (vm_compute; reflexivity).
    rewrite forallb_forall in Hall. specialize (Hall a Ha).
    rewrite forallb_forall in Hall. specialize (Hall p Hp).
    apply andb_prop in Hall as [H1 H2].
    split; by apply within_b_true.
Qed.

Lemma drawing_within_canvas_witness :
  In (Text 8 11.5 "ThinkingCindyAgent - LangGraph Architecture"
        [fontsize 20; fontweight "bold"; ha "center"; color "#333333"])
     (drawn home_world)
  /\ within (0, 16)%Q 8 /\ within (0, 12)%Q 11.5.
Proof.
  set (a := Text 8 11.5 "ThinkingCindyAgent - LangGraph Architecture"
              [fontsize 20; fontweight "bold"; ha "center"; color "#333333"]).
  assert (Ha : In a (drawn home_world)) by (vm_compute; left; reflexivity).
  split; [exact Ha|].
  destruct (drawing_within_canvas home_world)
    as (xl & yl & _ & -> & -> & Hall).
  exact (Hall a (8, 11.5)%Q Ha (or_introl eq_refl)).
Defined.

(** X8. The script draws eight boxes, all with [boxstyle="round,pad=0.1"],
    and no two of them touch: the padded outlines of any two different
    boxes are separated along one of the axes. *)
Theorem boxes_do_not_overlap (w : World) :
  length (boxes (drawn w)) = 8%nat
  /\ (forall b, In b (boxes (drawn w)) ->
        boxstyle_of (patch_kw b) = Some "round,pad=0.1")
  /\ (forall (i j : nat) (b1 b2 : Patch),
        boxes (drawn w) !! i = Some b1 ->
        boxes (drawn w) !! j = Some b2 ->
        i <> j -> apart b1 b2 = true).
Proof.
  rewrite drawn_spec. split; [vm_compute; reflexivity|]. split.
  - intros b Hb.
    assert (Hall : forallb (fun b => match boxstyle_of (patch_kw b) with
                                     | Some v => String.eqb v "round,pad=0.1"
                                     | None => false
                                     end) (boxes drawing) = true)
      by (vm_compute; reflexivity).
    rewrite forallb_forall in Hall. specialize (Hall b Hb).
    destruct (boxstyle_of (patch_kw b)) as [v|]; [|discriminate Hall].
    by apply String.eqb_eq in Hall as ->.
  - apply pairwise_lookup; [apply apart_sym|]. vm_compute. reflexivity.
Qed.

Lemma boxes_do_not_overlap_witness :
  boxes (drawn home_world) !! 0%nat
  = Some (FancyBboxPatch (1, 9.5)%Q 3 1.2
            [boxstyle "round,pad=0.1"; facecolor "#E3F2FD";
             edgecolor "black"; linewidth 2])
  /\ boxes (drawn home_world) !! 1%nat
     = Some (FancyBboxPatch (6, 9.5)%Q 3 1.2
               [boxstyle "round,pad=0.1"; facecolor "#F3E5F5";
                edgecolor "black"; linewidth 2])
  /\ apart (FancyBboxPatch (1, 9.5)%Q 3 1.2
              [boxstyle "round,pad=0.1"; facecolor "#E3F2FD";
               edgecolor "black"; linewidth 2])
           (FancyBboxPatch (6, 9.5)%Q 3 1.2
              [boxstyle "round,pad=0.1"; facecolor "#F3E5F5";
               edgecolor "black"; linewidth 2]) = true.
Proof.
  assert (H0 : boxes (drawn home_world) !! 0%nat
               = Some (FancyBboxPatch (1, 9.5)%Q 3 1.2
                         [boxstyle "round,pad=0.1"; facecolor "#E3F2FD";
                          edgecolor "black"; linewidth 2]))
    by (vm_compute; reflexivity).
  assert (H1 : boxes (drawn home_world) !! 1%nat
               = Some (FancyBboxPatch (6, 9.5)%Q 3 1.2
                         [boxstyle "round,pad=0.1"; facecolor "#F3E5F5";
                          edgecolor "black"; linewidth 2]))
    by (vm_compute; reflexivity).
  split; [exact H0|]. split; [exact H1|].
  destruct (boxes_do_not_overlap home_world) as (_ & _ & Hp).
  apply (Hp 0%nat 1%nat _ _ H0 H1). discriminate.
Defined.

(** X9. Labels sit in their boxes: whenever a box is added and then,
    with only texts in between, a text is placed, that text is anchored
    inside the rectangle of the box.  Two texts belong to no box, the
    title (placed before the first box) and the footer (placed after the
    arrows). *)
Theorem labels_sit_in_their_boxes (w : World) :
  (forall pre b mid x y s kw post,
      drawn w = pre ++ APatch b :: mid ++ Text x y s kw :: post ->
      box_of (APatch b) = Some b ->
      forallb is_text mid = true ->
      inside (x, y) b = true)
  /\ unboxed_texts None (drawn w)
     = ["ThinkingCindyAgent - LangGraph Architecture";
        "ThinkingCindyAgent: Multi-phase AI reasoning with tool execution and streaming output"]
  /\ length (List.filter is_text (drawn w)) = 42%nat.
Proof.
  rewrite drawn_spec. split; [|split].
  - apply (labels_inside_sound drawing None). vm_compute. reflexivity.
  - vm_compute. reflexivity.
  - vm_compute. reflexivity.
Qed.

Lemma labels_sit_in_their_boxes_witness :
  inside (2.5, 9.6)%Q
    (FancyBboxPatch (1, 9.5)%Q 3 1.2
       [boxstyle "round,pad=0.1"; facecolor "#E3F2FD";
        edgecolor "black"; linewidth 2]) = true.
Proof.
  destruct (labels_sit_in_their_boxes home_world) as [Hin _].
  apply (Hin (take 1 drawing) _ (take 2 (drop 2 drawing)) _ _
           ("• Parse hashtags" +:+ nl +:+ "• Extract clean input" +:+ nl
              +:+ "• Identify forced tools")
           [fontsize 9; ha "center"; va "center"]
           (drop 5 drawing)).
  - vm_compute. reflexivity.
  - reflexivity.
  - vm_compute. reflexivity.
Defined.

(** X10. Two arrows cut across a box they do not join: the arrow from the
    tools section to Phase 3 and the arrow from the hashtag section to
    Phase 1 both pass through the interior of the Phase 4 box (at 55% of
    their length). *)
Theorem arrows_cut_phase4_box (w : World) :
  exists b a4 a5 c4 c5 d4 d5,
    box_titled "PHASE 4: SYNTHESIS" = Some b
    /\ omap arrow_of_event (calls_of_run w) !! 3%nat
       = Some (fst a4, snd a4, c4, d4)
    /\ omap arrow_of_event (calls_of_run w) !! 4%nat
       = Some (fst a5, snd a5, c5, d5)
    /\ arrow_ends !! 3%nat = Some ("AVAILABLE TOOLS", "PHASE 3: TOOLS")
    /\ arrow_ends !! 4%nat = Some ("HASHTAG TOOL FORCING", "PHASE 1: INPUT")
    /\ strictly_inside (point_at (fst a4) (snd a4) 0.55) b = true
    /\ strictly_inside (point_at (fst a5) (snd a5) 0.55) b = true.
Proof.
  rewrite (proj1 (arrow_calls_of_run w)).
  eexists _, (_, _), (_, _), _, _, _, _.
  vm_compute. repeat split; reflexivity.
Qed.
